(** * ImageProcessor: conversion and compression engine

    A shallow embedding of [src/utils/ImageProcessor.js].

    Numbers.  JavaScript numbers are modelled twice.  The engine as a
    whole computes on exact rationals ([Q]); pixel dimensions, byte sizes
    and the resize bounds typed into the controls ([parseInt]) are integers
    ([Z]).  Division is only used with a non-zero divisor in every statement
    below (image dimensions and file sizes are assumed positive where a
    quotient is taken), so [Q]'s convention [x / 0 = 0] never shows.  On
    this version inequalities are proved: bounds, signs, proportions.  An
    exact quotient and the double the engine computes can differ in the last
    bit, and that decides to which side a half is rounded; so the dimension
    calculator is given a second time on binary64 values ([Double]), and
    what is said about the very numbers it returns is said there.

    Absent values.  [undefined] is [None].  JavaScript truthiness is
    written out: [undefined] and [0] are falsy, every other number is
    truthy.  [NaN], which [parseInt] can give, is falsy too, and every use
    of a bound is behind a truthiness test, so it behaves as [None].

    Promises.  An [async] method is a value of [Promise A]: how it ends
    (resolved, rejected with an error message, or never settled) together
    with the calls it made on the way.

    Browser.  Decoding, the 2D canvas, the bitmap encoders and jsPDF are
    not part of the repository: they are fields of a [Browser] record, and
    every call the engine makes to an encoder or to the page writer is
    logged in a trace, so that the arguments passed can be stated. *)

From Stdlib Require Import ZArith QArith Qround Qminmax String Ascii List Bool Lia Lqa.
From Stdlib Require Import DecimalString.
From Stdlib Require Import Floats.PrimFloat.
From Stdlib Require Floats.SpecFloat Floats.FloatOps Numbers.Cyclic.Int63.Uint63.
Import ListNotations.

Local Open Scope string_scope.
Local Open Scope Z_scope.
Local Open Scope Q_scope.

(** ** JavaScript values *)

Module Js.

(** Truthiness of a number: [0] is falsy. *)
Definition truthyQ (q : Q) : bool := negb (Qeq_bool q 0).

Definition truthyZ (z : Z) : bool := negb (Z.eqb z 0).

(** Truthiness of a possibly-undefined number. *)
Definition truthy (m : option Z) : bool :=
  match m with
  | Some z => truthyZ z
  | None => false
  end.

(** A bound as the tests [!m], [m && ...] and [if (m)] see it: a falsy
    bound is no bound. *)
Definition inForce (m : option Z) : option Z :=
  if truthy m then m else None.

(** Truthiness of a possibly-undefined boolean. *)
Definition truthyB (m : option bool) : bool :=
  match m with
  | Some b => b
  | None => false
  end.

(** [x || d] on a possibly-undefined number. *)
Definition orElse (x : option Q) (d : Q) : Q :=
  match x with
  | Some q => if truthyQ q then q else d
  | None => d
  end.

(** [a > b] on numbers. *)
Definition gt (a b : Q) : bool :=
  match a ?= b with
  | Gt => true
  | _ => false
  end.

(** [Math.min(a, b)]. *)
Definition Math_min (a b : Q) : Q := if gt a b then b else a.

(** [Math.round(x)]: the nearest integer, halves rounded up. *)
Definition Math_round (x : Q) : Z := Qfloor (x + (1 # 2)).

(** [s.includes(needle)]. *)
Fixpoint includes (needle s : string) : bool :=
  String.prefix needle s ||
  match s with
  | EmptyString => false
  | String _ r => includes needle r
  end.

Definition extChar (c : ascii) : bool :=
  negb (Ascii.eqb c "/" || Ascii.eqb c ".").

Fixpoint allExtChars (s : string) : bool :=
  match s with
  | EmptyString => true
  | String c r => extChar c && allExtChars r
  end.

(** [name.replace(/\.[^/.]+$/, ext)]: the leftmost dot that is followed,
    up to the end of the name, by one or more characters other than
    [/] and [.] is replaced, with what follows it, by [ext]. *)
Fixpoint replaceExtension (name ext : string) : string :=
  match name with
  | EmptyString => EmptyString
  | String c r =>
      if Ascii.eqb c "." && negb (String.eqb r "") && allExtChars r
      then ext
      else String c (replaceExtension r ext)
  end.

Definition upper (c : ascii) : ascii :=
  let n := nat_of_ascii c in
  if (97 <=? n)%nat && (n <=? 122)%nat then ascii_of_nat (n - 32) else c.

(** [s.toUpperCase()] on the ASCII range. *)
Fixpoint toUpperCase (s : string) : string :=
  match s with
  | EmptyString => EmptyString
  | String c r => String (upper c) (toUpperCase r)
  end.

End Js.

(** ** Dimension calculator *)

Record Dimensions : Type := mkDim { width : Z; height : Z }.

(** Lines 339-354 of [calculateDimensions]: the running [width] and
    [height] after the bounds were applied, before rounding. *)
Definition applyBounds (originalWidth originalHeight : Z)
    (maxWidth maxHeight : option Z) (maintainAspectRatio : bool) : Q * Q :=
  let width := inject_Z originalWidth in
  let height := inject_Z originalHeight in
  if maintainAspectRatio then
    let aspectRatio := inject_Z originalWidth / inject_Z originalHeight in
    let '(width, height) :=
      match maxWidth with
      | Some mw =>
          if Js.truthyZ mw && Js.gt width (inject_Z mw)
          then (inject_Z mw, inject_Z mw / aspectRatio)
          else (width, height)
      | None => (width, height)
      end in
    match maxHeight with
    | Some mh =>
        if Js.truthyZ mh && Js.gt height (inject_Z mh)
        then (inject_Z mh * aspectRatio, inject_Z mh)
        else (width, height)
    | None => (width, height)
    end
  else
    let width :=
      match maxWidth with
      | Some mw => if Js.truthyZ mw then Js.Math_min width (inject_Z mw) else width
      | None => width
      end in
    let height :=
      match maxHeight with
      | Some mh => if Js.truthyZ mh then Js.Math_min height (inject_Z mh) else height
      | None => height
      end in
    (width, height).

(** [calculateDimensions(originalWidth, originalHeight, maxWidth, maxHeight,
    maintainAspectRatio = true)]. *)
Definition calculateDimensions (originalWidth originalHeight : Z)
    (maxWidth maxHeight : option Z) (maintainAspectRatio : option bool) : Dimensions :=
  let lock := match maintainAspectRatio with Some b => b | None => true end in
  if negb (Js.truthy maxWidth) && negb (Js.truthy maxHeight) then
    mkDim originalWidth originalHeight
  else
    let '(width, height) :=
      applyBounds originalWidth originalHeight maxWidth maxHeight lock in
    mkDim (Js.Math_round width) (Js.Math_round height).

(** ** The dimension calculator on doubles *)

(** [calculateDimensions] once more, on binary64 values, operation for
    operation as the engine runs it: [/] and [*] round to the nearest
    double, so a quotient can fall just below a half that the exact quotient
    reaches.  Statements that give the very numbers returned are made on
    this version. *)
Module Double.

(** Truthiness of a number: [0], [-0] and [NaN] are falsy. *)
Definition truthyNumber (x : float) : bool :=
  PrimFloat.eqb x x && negb (PrimFloat.eqb x PrimFloat.zero).

Definition truthy (m : option float) : bool :=
  match m with
  | Some x => truthyNumber x
  | None => false
  end.

(** [a > b]. *)
Definition gt (a b : float) : bool := PrimFloat.ltb b a.

(** [Math.min(a, b)]: [NaN] when either is [NaN]; [-0] is below [+0]. *)
Definition Math_min (a b : float) : float :=
  if PrimFloat.eqb a a && PrimFloat.eqb b b then
    if PrimFloat.ltb b a then b
    else if PrimFloat.ltb a b then a
    else
      match FloatOps.Prim2SF a with
      | SpecFloat.S754_zero true => a
      | _ => b
      end
  else PrimFloat.nan.

(** The double of an integer below [2^53] in magnitude. *)
Definition ofZ (z : Z) : float :=
  match z with
  | Z0 => PrimFloat.zero
  | Zpos _ => PrimFloat.of_uint63 (Uint63.of_Z z)
  | Zneg p => PrimFloat.opp (PrimFloat.of_uint63 (Uint63.of_Z (Zpos p)))
  end.

(** [Math.round(x)]: [floor(x + 0.5)] taken exactly on the value
    [(-1)^s * m * 2^e] of [x]; an integral value, an infinity and [NaN] are
    returned as they are, and a result of zero keeps the sign of [x]. *)
Definition Math_round (x : float) : float :=
  match FloatOps.Prim2SF x with
  | SpecFloat.S754_finite s m e =>
      if (0 <=? e)%Z then x
      else
        let n := if s then Zneg m else Zpos m in
        let z := ((n + 2 ^ (- e - 1)) / 2 ^ (- e))%Z in
        if (z =? 0)%Z then (if s then PrimFloat.neg_zero else PrimFloat.zero)
        else ofZ z
  | _ => x
  end.

Record Dimensions : Type := mkDim { width : float; height : float }.

(** Lines 339-354 of [calculateDimensions]. *)
Definition applyBounds (originalWidth originalHeight : float)
    (maxWidth maxHeight : option float) (maintainAspectRatio : bool) : float * float :=
  let width := originalWidth in
  let height := originalHeight in
  if maintainAspectRatio then
    let aspectRatio := PrimFloat.div originalWidth originalHeight in
    let '(width, height) :=
      match maxWidth with
      | Some mw =>
          if truthyNumber mw && gt width mw
          then (mw, PrimFloat.div mw aspectRatio)
          else (width, height)
      | None => (width, height)
      end in
    match maxHeight with
    | Some mh =>
        if truthyNumber mh && gt height mh
        then (PrimFloat.mul mh aspectRatio, mh)
        else (width, height)
    | None => (width, height)
    end
  else
    let width :=
      match maxWidth with
      | Some mw => if truthyNumber mw then Math_min width mw else width
      | None => width
      end in
    let height :=
      match maxHeight with
      | Some mh => if truthyNumber mh then Math_min height mh else height
      | None => height
      end in
    (width, height).

(** [calculateDimensions(originalWidth, originalHeight, maxWidth, maxHeight,
    maintainAspectRatio = true)]. *)
Definition calculateDimensions (originalWidth originalHeight : float)
    (maxWidth maxHeight : option float) (maintainAspectRatio : option bool)
    : Dimensions :=
  let lock := match maintainAspectRatio with Some b => b | None => true end in
  if negb (truthy maxWidth) && negb (truthy maxHeight) then
    mkDim originalWidth originalHeight
  else
    let '(width, height) :=
      applyBounds originalWidth originalHeight maxWidth maxHeight lock in
    mkDim (Math_round width) (Math_round height).

End Double.

(** ** Files, settings and records *)

(** A [Blob] (a [File] is one).  [pixels] is what decoding it into an
    [Image] gives: [Some (width, height)] when [onload] fires, [None] when
    [onerror] does. *)
Module Blob.
Record t : Type := mk { size : Z; type : string; pixels : option (Z * Z) }.

(** [new Blob()]. *)
Definition empty : t := mk 0 "" None.
End Blob.

Module ImageItem.
Record t : Type := mk { id : string; file : Blob.t; name : string }.
End ImageItem.

(** The compression settings object; every property may be missing. *)
Module Settings.
Record t : Type := mk {
  quality : option Q;
  maxWidth : option Z;
  maxHeight : option Z;
  maintainAspectRatio : option bool;
  enableCompression : option bool
}.

(** [{}], the default of the [compressionSettings] parameter. *)
Definition empty : t := mk None None None None None.
End Settings.

(** The [stats] object built by the re-encoder and by the document
    assembler.  The assembler's fallback object has only three of the
    properties. *)
Module Stats.
Record t : Type := mk {
  originalSize : Z;
  compressedSize : Z;
  compressionRatio : option Q;
  quality : option Q;
  originalDimensions : option Dimensions;
  newDimensions : option Dimensions
}.
End Stats.

(** The [compressionStats] object of a conversion result. *)
Module CompressionStats.
Record t : Type := mk {
  originalSize : Z;
  finalSize : Z;
  compressionRatio : Q;
  quality : Q
}.
End CompressionStats.

Module ConversionResult.
Record t : Type := mk {
  id : string;
  originalName : string;
  convertedName : string;
  blob : Blob.t;
  url : string;
  fromType : string;
  toType : string;
  success : bool;
  compressionStats : option CompressionStats.t;
  error : option string
}.
End ConversionResult.

Module Conversion.
Record t : Type := mk {
  from : string;
  to : string;
  clientSide : bool;
  supportsCompression : bool
}.
End Conversion.

(** ** Promises with a log of canvas and page-writer calls *)

(** [FillStyle c] is the assignment [ctx.fillStyle = c]; [FillRect x y w h]
    is [ctx.fillRect(x, y, w, h)]; [DrawImage img size] is
    [ctx.drawImage(img, 0, 0)], with the width and height when they are
    passed; [ToBlob] and [ToDataURL] carry the width and height assigned to
    the canvas, the MIME type and the quality; [AddImage] is
    [pdf.addImage(imgData, format, x, y, w, h)]. *)
Inductive Event : Type :=
| FillStyle (color : string)
| FillRect (x y w h : Q)
| DrawImage (source : Blob.t) (size : option (Q * Q))
| ToBlob (canvas : Q * Q) (mime : string) (quality : option Q)
| ToDataURL (canvas : Q * Q) (mime : string) (quality : Q)
| AddImage (format : string) (x y w h : Q).

(** How a promise ends: resolved, rejected with [new Error(message)], or
    never settled. *)
Inductive Completion (A : Type) : Type :=
| Resolved (value : A)
| Rejected (message : string)
| Pending.

Arguments Resolved {A} value.
Arguments Rejected {A} message.
Arguments Pending {A}.

Definition Promise (A : Type) : Type := (Completion A * list Event)%type.

Definition resolve {A : Type} (a : A) : Promise A := (Resolved a, []).

Definition reject {A : Type} (message : string) : Promise A := (Rejected message, []).

Definition emit (e : Event) : Promise unit := (Resolved tt, [e]).

Definition await {A B : Type} (p : Promise A) (k : A -> Promise B) : Promise B :=
  match p with
  | (Resolved a, log) => let '(r, log') := k a in (r, (log ++ log')%list)
  | (Rejected message, log) => (Rejected message, log)
  | (Pending, log) => (Pending, log)
  end.

(** [try { p } catch (error) { handler(error.message) }]. *)
Definition tryCatch {A : Type} (p : Promise A) (handler : string -> Promise A) : Promise A :=
  match p with
  | (Resolved a, log) => (Resolved a, log)
  | (Rejected message, log) => let '(r, log') := handler message in (r, (log ++ log')%list)
  | (Pending, log) => (Pending, log)
  end.

Declare Scope promise_scope.
Delimit Scope promise_scope with promise.
Notation "x <- p ;; k" := (await p (fun x => k))
  (at level 61, p at next level, right associativity) : promise_scope.
Notation "' pat <- p ;; k" := (await p (fun x => match x with pat => k end))
  (at level 61, pat pattern, p at next level, right associativity) : promise_scope.
Notation "p ;; k" := (await p (fun _ => k))
  (at level 61, right associativity) : promise_scope.

(** ** The browser *)

Record Browser : Type := mkBrowser {
  (** whether [canvas.getContext('2d')] gives a context *)
  getContext : bool;
  (** [canvas.toBlob]: the byte length of the encoded canvas, or [None]
      when the callback receives [null]; arguments: the image drawn, the
      canvas size, the MIME type and the quality *)
  toBlob : Blob.t -> Q * Q -> string -> option Q -> option Z;
  (** [canvas.toDataURL] *)
  toDataURL : Blob.t -> Q * Q -> string -> Q -> string;
  (** [pdf.internal.pageSize.getWidth()] and [getHeight()] *)
  pdfWidth : Q;
  pdfHeight : Q;
  (** [pdf.addImage(...)] followed by [pdf.output('blob')]: the byte
      length of the document, or the exception raised *)
  pdfOutput : string -> Q -> Q -> Q -> Q -> string + Z;
  (** [URL.createObjectURL] *)
  createObjectURL : Blob.t -> string
}.

(** ** The engine *)

Section Engine.

Variable B : Browser.

Local Open Scope promise_scope.

Definition supportedConversions : list Conversion.t :=
  [ Conversion.mk "jpg" "png" true true;
    Conversion.mk "jpeg" "png" true true;
    Conversion.mk "png" "jpg" true true;
    Conversion.mk "png" "jpeg" true true;
    Conversion.mk "jpg" "pdf" true true;
    Conversion.mk "jpeg" "pdf" true true;
    Conversion.mk "png" "pdf" true true ].

(** [const img = new Image(); img.onload = ...; img.onerror = () =>
    reject(new Error(message)); img.src = URL.createObjectURL(file)]. *)
Definition loadImage (file : Blob.t) (message : string) : Promise (Z * Z) :=
  match Blob.pixels file with
  | Some d => resolve d
  | None => reject message
  end.

(** The blob that the encoder gives is taken to decode, to the size of
    the canvas it was encoded from. *)
Definition compressImage (file : Blob.t) (settings : Settings.t)
    : Promise (Blob.t * Stats.t) :=
  '(imgWidth, imgHeight) <- loadImage file "Failed to load image" ;;
  if negb (getContext B) then reject "Could not get canvas context" else
  let 'mkDim width height :=
    calculateDimensions imgWidth imgHeight
      (Settings.maxWidth settings) (Settings.maxHeight settings)
      (Settings.maintainAspectRatio settings) in
  let canvas := (inject_Z width, inject_Z height) in
  let outputFormat :=
    if Js.includes "png" (Blob.type file) then "image/png" else "image/jpeg" in
  (if String.eqb outputFormat "image/jpeg"
   then emit (FillStyle "#FFFFFF") ;;
        emit (FillRect 0 0 (inject_Z width) (inject_Z height))
   else resolve tt) ;;
  emit (DrawImage file (Some canvas)) ;;
  emit (ToBlob canvas outputFormat (Settings.quality settings)) ;;
  match toBlob B file canvas outputFormat (Settings.quality settings) with
  | Some blobSize =>
      let blob := Blob.mk blobSize outputFormat (Some (width, height)) in
      let stats :=
        Stats.mk (Blob.size file) blobSize
          (Some (((inject_Z (Blob.size file) - inject_Z blobSize)
                  / inject_Z (Blob.size file)) * 100))
          (Settings.quality settings)
          (Some (mkDim imgWidth imgHeight))
          (Some (mkDim width height)) in
      resolve (blob, stats)
  | None => reject "Failed to compress image"
  end.

(** Lines 206-222 of [convertImageToPDF]: where the raster goes on the
    page, as [(x, y, finalWidth, finalHeight)]. *)
Definition pagePlacement (pdfWidth pdfHeight : Q) (imageWidth imageHeight : Z)
    : Q * Q * Q * Q :=
  let imgAspectRatio := inject_Z imageWidth / inject_Z imageHeight in
  let pdfAspectRatio := pdfWidth / pdfHeight in
  let '(finalWidth, finalHeight) :=
    if Js.gt imgAspectRatio pdfAspectRatio
    then (pdfWidth - 20, (pdfWidth - 20) / imgAspectRatio)
    else ((pdfHeight - 20) * imgAspectRatio, pdfHeight - 20) in
  let x := (pdfWidth - finalWidth) / 2 in
  let y := (pdfHeight - finalHeight) / 2 in
  (x, y, finalWidth, finalHeight).

Definition convertImageToPDF (imageFile : Blob.t) (compressionSettings : Settings.t)
    : Promise (Blob.t * Stats.t) :=
  '(imgWidth, imgHeight) <- loadImage imageFile "Failed to load image" ;;
  if negb (getContext B) then reject "Could not get canvas context" else
  '(processedImage, processedSize, compressionStats) <-
    (if Js.truthyB (Settings.enableCompression compressionSettings) then
       '(compressedBlob, compressedStats) <- compressImage imageFile compressionSettings ;;
       (* [await new Promise((resolve) => { compressedImg.onload = resolve })] *)
       match Blob.pixels compressedBlob with
       | Some d => resolve (compressedBlob, d, Some compressedStats)
       | None => (Pending, [])
       end
     else resolve (imageFile, (imgWidth, imgHeight), None)) ;;
  let '(processedWidth, processedHeight) := processedSize in
  let canvas := (inject_Z processedWidth, inject_Z processedHeight) in
  emit (DrawImage processedImage None) ;;
  let '(x, y, finalWidth, finalHeight) :=
    pagePlacement (pdfWidth B) (pdfHeight B) processedWidth processedHeight in
  let embedQuality := Js.orElse (Settings.quality compressionSettings) (19 # 20) in
  emit (ToDataURL canvas "image/jpeg" embedQuality) ;;
  let imgData := toDataURL B processedImage canvas "image/jpeg" embedQuality in
  emit (AddImage "JPEG" x y finalWidth finalHeight) ;;
  match pdfOutput B imgData x y finalWidth finalHeight with
  | inr pdfSize =>
      let pdfBlob := Blob.mk pdfSize "application/pdf" None in
      resolve (pdfBlob,
               match compressionStats with
               | Some stats => stats
               | None =>
                   Stats.mk (Blob.size imageFile) pdfSize None
                     (Some embedQuality) None None
               end)
  | inl message => reject message
  end.

Definition convertImageFormat (file : Blob.t) (fromType toType : string)
    (compressionSettings : Settings.t) : Promise (Blob.t * Stats.t) :=
  '(imgWidth, imgHeight) <- loadImage file "Failed to load image" ;;
  if negb (getContext B) then reject "Could not get canvas context" else
  (* [compressionSettings ? this.calculateDimensions(...) : {...}]: the
     settings are an object, hence truthy *)
  let 'mkDim width height :=
    calculateDimensions imgWidth imgHeight
      (Settings.maxWidth compressionSettings) (Settings.maxHeight compressionSettings)
      (Settings.maintainAspectRatio compressionSettings) in
  let canvas := (inject_Z width, inject_Z height) in
  (if String.eqb toType "jpg" || String.eqb toType "jpeg"
   then emit (FillStyle "#FFFFFF") ;;
        emit (FillRect 0 0 (inject_Z width) (inject_Z height))
   else resolve tt) ;;
  emit (DrawImage file (Some canvas)) ;;
  let outputFormat := if String.eqb toType "png" then "image/png" else "image/jpeg" in
  let quality :=
    if Js.truthyB (Settings.enableCompression compressionSettings)
    then Settings.quality compressionSettings
    else if String.eqb toType "png" then None else Some (19 # 20) in
  emit (ToBlob canvas outputFormat quality) ;;
  match toBlob B file canvas outputFormat quality with
  | Some blobSize =>
      let blob := Blob.mk blobSize outputFormat (Some (width, height)) in
      let stats :=
        Stats.mk (Blob.size file) blobSize
          (Some (((inject_Z (Blob.size file) - inject_Z blobSize)
                  / inject_Z (Blob.size file)) * 100))
          (Some (Js.orElse quality 1))
          (Some (mkDim imgWidth imgHeight))
          (Some (mkDim width height)) in
      resolve (blob, stats)
  | None => reject "Failed to create blob"
  end.

(** The predicate of [supportedConversions.find] in [convertImage]. *)
Definition matches (normalizedFromType normalizedToType : string) (c : Conversion.t)
    : bool :=
  (String.eqb (Conversion.from c) normalizedFromType
   || (String.eqb normalizedFromType "jpg" && String.eqb (Conversion.from c) "jpeg"))
  && (String.eqb (Conversion.to c) normalizedToType
      || (String.eqb normalizedToType "jpg" && String.eqb (Conversion.to c) "jpeg")).

Definition normalize (type : string) : string :=
  if String.eqb type "jpeg" then "jpg" else type.

Definition convertImage (imageItem : ImageItem.t) (fromType toType : string)
    (compressionSettings : Settings.t) : Promise ConversionResult.t :=
  let normalizedFromType := normalize fromType in
  let normalizedToType := normalize toType in
  match find (matches normalizedFromType normalizedToType) supportedConversions with
  | None =>
      reject ("Conversion from " ++ Js.toUpperCase fromType ++ " to "
              ++ Js.toUpperCase toType ++ " is not supported")
  | Some conversion =>
      tryCatch
        (let originalSize := Blob.size (ImageItem.file imageItem) in
         '(blob, compressionStats, fileName) <-
           (if String.eqb toType "pdf" then
              '(blob, stats) <-
                convertImageToPDF (ImageItem.file imageItem) compressionSettings ;;
              resolve (blob, stats,
                       Js.replaceExtension (ImageItem.name imageItem) ".pdf")
            else if negb (String.eqb normalizedFromType normalizedToType)
                    || Js.truthyB (Settings.enableCompression compressionSettings) then
              '(blob, stats) <-
                convertImageFormat (ImageItem.file imageItem) fromType toType
                  compressionSettings ;;
              resolve (blob, stats,
                       Js.replaceExtension (ImageItem.name imageItem) ("." ++ toType))
            else reject "No conversion or compression requested") ;;
         let url := createObjectURL B blob in
         resolve
           (ConversionResult.mk (ImageItem.id imageItem) (ImageItem.name imageItem)
              fileName blob url fromType toType true
              (* [compressionStats ? {...} : undefined]: the stats of both
                 delegates are objects, hence truthy *)
              (Some
                 (CompressionStats.mk originalSize (Blob.size blob)
                    (((inject_Z originalSize - inject_Z (Blob.size blob))
                      / inject_Z originalSize) * 100)
                    (Js.orElse (Settings.quality compressionSettings) 1)))
              None))
        (fun message =>
           resolve
             (ConversionResult.mk (ImageItem.id imageItem) (ImageItem.name imageItem)
                "" Blob.empty "" fromType toType false None (Some message)))
  end.

Definition generateCompressionPreview (file : Blob.t) (quality : Q)
    : Promise (Z * option Q * Blob.t) :=
  let settings := Settings.mk (Some quality) None None (Some true) (Some true) in
  '(blob, stats) <- compressImage file settings ;;
  resolve (Blob.size blob, Stats.compressionRatio stats, blob).

(** [generateThumbnail(file, maxSize = 120)].  The pair logged with
    [ToDataURL] is the width and height assigned to the canvas; the canvas
    itself keeps the integer part of each. *)
Definition generateThumbnail (file : Blob.t) (maxSize : option Q) : Promise string :=
  let maxSize := match maxSize with Some m => m | None => 120 end in
  '(imgWidth, imgHeight) <- loadImage file "Failed to load image for thumbnail" ;;
  if negb (getContext B) then reject "Could not get canvas context" else
  let aspectRatio := inject_Z imgWidth / inject_Z imgHeight in
  let '(width, height) :=
    if Js.gt aspectRatio 1
    then (maxSize, maxSize / aspectRatio)
    else (maxSize * aspectRatio, maxSize) in
  emit (DrawImage file (Some (width, height))) ;;
  emit (ToDataURL (width, height) "image/jpeg" (4 # 5)) ;;
  resolve (toDataURL B file (width, height) "image/jpeg" (4 # 5)).

End Engine.

(** ** Reading the log *)

(** The quality argument of every [canvas.toBlob] call, in order. *)
Fixpoint toBlobQualities (log : list Event) : list (option Q) :=
  match log with
  | [] => []
  | ToBlob _ _ quality :: rest => quality :: toBlobQualities rest
  | _ :: rest => toBlobQualities rest
  end.

(** The quality argument of every encoder call ([toBlob] and
    [toDataURL]) that received a number. *)
Fixpoint encoderQualities (log : list Event) : list Q :=
  match log with
  | [] => []
  | ToBlob _ _ (Some quality) :: rest => quality :: encoderQualities rest
  | ToDataURL _ _ quality :: rest => quality :: encoderQualities rest
  | _ :: rest => encoderQualities rest
  end.

(** ** The specification's wording, for comparison with the code *)

Module Spec.

(** Section 4.1: if [maxW] is given and the width exceeds it, set
    [width = maxW], [height = width / aspect]. *)
Definition widthPass (aspect : float) (maxW : option float) (d : float * float)
    : float * float :=
  match maxW with
  | Some mw =>
      if PrimFloat.ltb mw (fst d)
      then (mw, PrimFloat.div mw aspect)
      else d
  | None => d
  end.

(** Section 4.1: then, if [maxH] is given and the current height exceeds
    it, set [height = maxH], [width = height * aspect]. *)
Definition heightPass (aspect : float) (maxH : option float) (d : float * float)
    : float * float :=
  match maxH with
  | Some mh =>
      if PrimFloat.ltb mh (snd d)
      then (PrimFloat.mul mh aspect, mh)
      else d
  | None => d
  end.

(** Section 4.1 under the aspect lock: the original dimensions when
    neither bound is given; otherwise the width pass, then the height pass,
    then rounding. *)
Definition calculateLocked (originalW originalH : float) (maxW maxH : option float)
    : Double.Dimensions :=
  match maxW, maxH with
  | None, None => Double.mkDim originalW originalH
  | _, _ =>
      let aspect := PrimFloat.div originalW originalH in
      let d := heightPass aspect maxH (widthPass aspect maxW (originalW, originalH)) in
      Double.mkDim (Double.Math_round (fst d)) (Double.Math_round (snd d))
  end.

(** Section 3: [compressionRatio = (originalSize - finalSize) /
    originalSize * 100]. *)
Definition compressionRatio (originalSize finalSize : Z) : Q :=
  (inject_Z originalSize - inject_Z finalSize) / inject_Z originalSize * 100.

(** Section 3: quality clamped to [[0.1, 1.0]]. *)
Definition clampQuality (quality : Q) : Q :=
  Qmax (1 # 10) (Qmin quality 1).

(** Section 4.4: the single bounding box of a thumbnail, as
    [(width, height)]. *)
Definition thumbnailBox (maxSize : Q) (imgWidth imgHeight : Z) : Q * Q :=
  let aspect := inject_Z imgWidth / inject_Z imgHeight in
  if Qlt_le_dec 1 aspect
  then (maxSize, maxSize / aspect)
  else (maxSize * aspect, maxSize).

(** Section 4.5: formats are normalized, then the pair is looked up in
    the table. *)
Definition pairListed (table : list Conversion.t) (sourceFormat targetFormat : string)
    : bool :=
  existsb
    (fun c =>
       String.eqb (normalize (Conversion.from c)) (normalize sourceFormat)
       && String.eqb (normalize (Conversion.to c)) (normalize targetFormat))
    table.

(** Section 4.5: the message of the [UnsupportedPair] failure. *)
Definition unsupportedPair (sourceFormat targetFormat : string) : string :=
  "Conversion from " ++ Js.toUpperCase sourceFormat ++ " to "
  ++ Js.toUpperCase targetFormat ++ " is not supported".

(** Section 4.5: the message of the [NoOperationRequested] failure. *)
Definition noOperationRequested : string :=
  "No conversion or compression requested".

End Spec.

(** ** A browser and some files to run the engine on *)

Module Demo.

(** Every encoder call gives 12000 bytes, the page is A4 in millimetres
    and the written document has 15000 bytes. *)
Definition browser : Browser :=
  mkBrowser true
    (fun _ _ _ _ => Some 12000%Z)
    (fun _ _ _ _ => "data:image/jpeg;base64,AAAA")
    210 297
    (fun _ _ _ _ _ => inr 15000%Z)
    (fun _ => "blob:result").

Definition png : Blob.t := Blob.mk 10000 "image/png" (Some (2000, 1000)%Z).

Definition item : ImageItem.t := ImageItem.mk "id-1" png "photo.png".

(** The settings of [App.jsx] before any control is touched. *)
Definition settings : Settings.t :=
  Settings.mk (Some (4 # 5)) None None (Some true) (Some false).

Definition compress (quality : Q) : Settings.t :=
  Settings.mk (Some quality) None None (Some true) (Some true).

End Demo.

(** ** The two shapes of a conversion result *)

(** The object returned at the end of the [try] block of [convertImage]. *)
Definition successRecord (B : Browser) (imageItem : ImageItem.t)
    (fromType toType : string) (settings : Settings.t)
    (blob : Blob.t) (fileName : string) : ConversionResult.t :=
  ConversionResult.mk (ImageItem.id imageItem) (ImageItem.name imageItem)
    fileName blob (createObjectURL B blob) fromType toType true
    (Some
       (CompressionStats.mk (Blob.size (ImageItem.file imageItem)) (Blob.size blob)
          (((inject_Z (Blob.size (ImageItem.file imageItem)) - inject_Z (Blob.size blob))
            / inject_Z (Blob.size (ImageItem.file imageItem))) * 100)
          (Js.orElse (Settings.quality settings) 1)))
    None.

(** The object returned by the [catch] block of [convertImage]. *)
Definition failureRecord (imageItem : ImageItem.t) (fromType toType : string)
    (message : string) : ConversionResult.t :=
  ConversionResult.mk (ImageItem.id imageItem) (ImageItem.name imageItem)
    "" Blob.empty "" fromType toType false None (Some message).

(** Every [canvas.toBlob] call, in order: canvas size, MIME type and
    quality. *)
Fixpoint toBlobCalls (log : list Event) : list (Q * Q * string * option Q) :=
  match log with
  | [] => []
  | ToBlob canvas mime quality :: rest => (canvas, mime, quality) :: toBlobCalls rest
  | _ :: rest => toBlobCalls rest
  end.

(** ** More browsers and files to run the engine on *)

Module Fixture.

(** A browser whose canvas gives no 2D context. *)
Definition noContext : Browser :=
  mkBrowser false
    (fun _ _ _ _ => Some 12000%Z)
    (fun _ _ _ _ => "data:image/jpeg;base64,AAAA")
    210 297
    (fun _ _ _ _ _ => inr 15000%Z)
    (fun _ => "blob:result").

(** A browser whose encoder halves the byte size of what it is given. *)
Definition halving : Browser :=
  mkBrowser true
    (fun source _ _ _ => Some (Blob.size source / 2)%Z)
    (fun _ _ _ _ => "data:image/jpeg;base64,AAAA")
    210 297
    (fun _ _ _ _ _ => inr 15000%Z)
    (fun _ => "blob:result").

(** A file that does not decode. *)
Definition broken : ImageItem.t :=
  ImageItem.mk "id-2" (Blob.mk 10 "image/png" None) "broken.png".

Definition jpg : Blob.t := Blob.mk 20000 "image/jpeg" (Some (700, 1000)%Z).



End Fixture.

(** ** The upload zone ([components/ImageUploadZone.jsx]) *)

(** A [File]: a blob with a name. *)
Module File.
Record t : Type := mk { name : string; blob : Blob.t }.

Definition size (f : t) : Z := Blob.size (blob f).

Definition type (f : t) : string := Blob.type (blob f).
End File.

Module Upload.

(** [getAcceptString()], by the [acceptedTypes] property. *)
Definition getAcceptString (acceptedTypes : string) : string :=
  if String.eqb acceptedTypes "jpg" || String.eqb acceptedTypes "jpeg"
  then ".jpg,.jpeg,image/jpeg"
  else if String.eqb acceptedTypes "png" then ".png,image/png"
  else ".jpg,.jpeg,.png,image/jpeg,image/png".

Definition maxSize : Z := 10 * 1024 * 1024.

Definition validTypes : list string := ["image/jpeg"; "image/jpg"; "image/png"].

(** [validateFile(file)]: the verdict and the [alert] shown, if any. *)
Definition validateFile (file : File.t) : bool * list string :=
  if (maxSize <? File.size file)%Z then
    (false, ["Image " ++ File.name file ++ " is too large. Maximum size is 10MB."])
  else if negb (existsb (String.eqb (File.type file)) validTypes) then
    (false, ["File " ++ File.name file
             ++ " is not a valid image format. Please select JPG or PNG images."])
  else (true, []).

(** [files.filter(validateFile)], with the alerts in the order shown. *)
Fixpoint filterValid (files : list File.t) : list File.t * list string :=
  match files with
  | [] => ([], [])
  | file :: rest =>
      let '(ok, alerts) := validateFile file in
      let '(valid, alerts') := filterValid rest in
      (if ok then file :: valid else valid, (alerts ++ alerts')%list)
  end.

(** [handleFileSelect]: what [onImagesSelected] is called with ([None] when
    it is not called) and the alerts shown. *)
Definition handleFileSelect (files : list File.t) : option (list File.t) * list string :=
  let '(validFiles, alerts) := filterValid files in
  (match validFiles with [] => None | _ => Some validFiles end, alerts).

(** [handleDrop], for the zone's [disabled] property and the dropped
    files. *)
Definition handleDrop (disabled : bool) (files : list File.t)
    : option (list File.t) * list string :=
  if disabled then (None, []) else handleFileSelect files.

End Upload.

(** ** The application ([App.jsx])

    The React state is a record; a handler is a function from the state it
    starts in to the state it leaves, its setters applied in the order the
    code calls them.  Nothing else is taken to change the state while a
    handler runs. *)

Module App.

Record Image : Type := mkImage {
  id : string;
  file : File.t;
  name : string;
  size : Z;
  type : string;
  extension : string;
  status : string
}.

(** The image item as [convertImage] reads it. *)
Definition toItem (img : Image) : ImageItem.t :=
  ImageItem.mk (id img) (File.blob (file img)) (name img).

Record State : Type := mkState {
  fromType : string;
  toType : string;
  selectedImages : list Image;
  isConverting : bool;
  conversionResults : list ConversionResult.t;
  error : string;
  compressionSettings : Settings.t
}.

Definition lower (c : ascii) : ascii :=
  let n := nat_of_ascii c in
  if (65 <=? n)%nat && (n <=? 90)%nat then ascii_of_nat (n + 32) else c.

(** [s.toLowerCase()] on the ASCII range. *)
Fixpoint toLowerCase (s : string) : string :=
  match s with
  | EmptyString => EmptyString
  | String c r => String (lower c) (toLowerCase r)
  end.

(** [s.split('.').pop()]: what follows the last dot, or all of [s]. *)
Fixpoint lastSegment (s : string) : string :=
  match s with
  | EmptyString => EmptyString
  | String c r =>
      if Js.includes "." r then lastSegment r
      else if Ascii.eqb c "." then r
      else String c r
  end.

(** [handleImagesSelected(files)]; [uuids] are the values that
    [crypto.randomUUID()] returns, one for each file. *)
Definition handleImagesSelected (uuids : list string) (files : list File.t) (s : State)
    : State :=
  let imageItems :=
    map (fun '(uuid, file) =>
           mkImage uuid file (File.name file) (File.size file) (File.type file)
             (toLowerCase (lastSegment (File.name file))) "pending")
        (combine uuids files) in
  mkState (fromType s) (toType s) (selectedImages s ++ imageItems) (isConverting s)
    (conversionResults s) "" (compressionSettings s).

(** [handleRemoveImage(id)]. *)
Definition handleRemoveImage (id' : string) (s : State) : State :=
  mkState (fromType s) (toType s)
    (filter (fun img => negb (String.eqb (id img) id')) (selectedImages s))
    (isConverting s) (conversionResults s) (error s) (compressionSettings s).

(** [{ ...img, status }]. *)
Definition withStatus (status' : string) (img : Image) : Image :=
  mkImage (id img) (file img) (name img) (size img) (type img) (extension img) status'.

(** [prev.map(img => img.id === id ? { ...img, status } : img)]. *)
Definition setStatus (id' status' : string) (images : list Image) : list Image :=
  map (fun img => if String.eqb (id img) id' then withStatus status' img else img) images.

(** The status an image gets when its conversion has returned. *)
Definition finalStatus (result : ConversionResult.t) : string :=
  if ConversionResult.success result then "completed" else "error".

(** The second [setSelectedImages] of the loop, for an image and the
    result its conversion resolved to. *)
Definition settle (images : list Image) (p : Image * ConversionResult.t) : list Image :=
  setStatus (id (fst p)) (finalStatus (snd p)) images.

(** How the loop of [handleConvertImages] ends. *)
Inductive LoopEnd : Type :=
| Finished
| Threw (message : string)
| NeverSettled.

(** The [for] loop of [handleConvertImages] over the images that were
    selected when the handler was created; [images] is the list the state
    setters act on and [results] the local array. *)
Fixpoint convertEach (B : Browser) (fromType toType : string) (settings : Settings.t)
    (snapshot images : list Image) (results : list ConversionResult.t)
    : LoopEnd * list Image * list ConversionResult.t * list Event :=
  match snapshot with
  | [] => (Finished, images, results, [])
  | imageItem :: rest =>
      let images := setStatus (id imageItem) "converting" images in
      match convertImage B (toItem imageItem) fromType toType settings with
      | (Resolved result, log) =>
          let images := setStatus (id imageItem) (finalStatus result) images in
          let '(e, images', results', log') :=
            convertEach B fromType toType settings rest images
              (results ++ [result])%list in
          (e, images', results', (log ++ log')%list)
      | (Rejected message, log) => (Threw message, images, results, log)
      | (Pending, log) => (NeverSettled, images, results, log)
      end
  end.

(** [handleConvertImages()]: the state once the handler is through, and the
    calls made. *)
Definition handleConvertImages (B : Browser) (s : State) : State * list Event :=
  if String.eqb (fromType s) "" || String.eqb (toType s) ""
     || Nat.eqb (length (selectedImages s)) 0
  then
    (mkState (fromType s) (toType s) (selectedImages s) (isConverting s)
       (conversionResults s) "Please select image types and add images to convert"
       (compressionSettings s), [])
  else
    match convertEach B (fromType s) (toType s) (compressionSettings s)
            (selectedImages s) (selectedImages s) [] with
    | (Finished, images, results, log) =>
        (mkState (fromType s) (toType s) images false results ""
           (compressionSettings s), log)
    | (Threw message, images, _, log) =>
        (mkState (fromType s) (toType s) images false (conversionResults s) message
           (compressionSettings s), log)
    | (NeverSettled, images, _, log) =>
        (mkState (fromType s) (toType s) images true (conversionResults s) ""
           (compressionSettings s), log)
    end.

(** [showCompressionControls], as a truth value. *)
Definition showCompressionControls (s : State) : bool :=
  negb (String.eqb (fromType s) "") && negb (String.eqb (toType s) "")
  && ((String.eqb (fromType s) "jpg" || String.eqb (fromType s) "png")
      && (String.eqb (toType s) "jpg" || String.eqb (toType s) "png"
          || String.eqb (toType s) "pdf")).

(** [canConvert], as a truth value. *)
Definition canConvert (s : State) : bool :=
  negb (String.eqb (fromType s) "") && negb (String.eqb (toType s) "")
  && negb (Nat.eqb (length (selectedImages s)) 0) && negb (isConverting s).

End App.

(** ** The results panel ([ConversionResults]) *)

Module Results.

Record Totals : Type := mkTotals { originalSize : Z; finalSize : Z; fileCount : Z }.

(** The callback of [successfulResults.reduce]. *)
Definition addResult (acc : Totals) (result : ConversionResult.t) : Totals :=
  match ConversionResult.compressionStats result with
  | Some stats =>
      mkTotals (originalSize acc + CompressionStats.originalSize stats)
               (finalSize acc + CompressionStats.finalSize stats)
               (fileCount acc + 1)
  | None => acc
  end.

Definition successfulResults (results : list ConversionResult.t)
    : list ConversionResult.t :=
  filter ConversionResult.success results.

Definition failedResults (results : list ConversionResult.t) : list ConversionResult.t :=
  filter (fun r => negb (ConversionResult.success r)) results.

Definition totalStats (results : list ConversionResult.t) : Totals :=
  fold_left addResult (successfulResults results) (mkTotals 0 0 0).

Definition totalCompressionRatio (results : list ConversionResult.t) : Q :=
  let t := totalStats results in
  if (0 <? originalSize t)%Z
  then ((inject_Z (originalSize t) - inject_Z (finalSize t)) / inject_Z (originalSize t))
       * 100
  else 0.

(** Whether the compression summary is rendered. *)
Definition showSummary (results : list ConversionResult.t) : bool :=
  (0 <? fileCount (totalStats results))%Z && Js.gt (totalCompressionRatio results) 0.

(** Whether the "Download All" button is rendered. *)
Definition showDownloadAll (results : list ConversionResult.t) : bool :=
  (1 <? length (successfulResults results))%nat.

End Results.

(** ** The compression controls ([components/CompressionControls.jsx]) *)

Module Controls.

(** [a >= b] on numbers. *)
Definition ge (a b : Q) : bool := negb (Js.gt b a).

Definition getQualityLabel (quality : Q) : string :=
  if ge quality (9 # 10) then "High Quality"
  else if ge quality (7 # 10) then "Good Quality"
  else if ge quality (5 # 10) then "Medium Quality"
  else if ge quality (3 # 10) then "Low Quality"
  else "Very Low Quality".

(** [compressionPercent] of [getCompressionEstimate]. *)
Definition compressionPercent (quality : Q) : Z :=
  Js.Math_round ((1 - quality) * 80).

Definition getCompressionEstimate (quality : Q) : string :=
  "~" ++ NilZero.string_of_int (Z.to_int (compressionPercent quality)) ++ "% smaller".

End Controls.

(** ** The image list ([components/ImageList.jsx]) *)

Module ImageList.

(** The [disabled] property of an item's remove button. *)
Definition removeDisabled (image : App.Image) : bool :=
  String.eqb (App.status image) "converting".

(** [images.reduce((sum, img) => sum + img.size, 0)]. *)
Definition totalOriginalSize (images : list App.Image) : Z :=
  fold_left (fun sum img => (sum + App.size img)%Z) images 0%Z.

End ImageList.

(** ** A page with two selected images *)

Module Sample.

Definition good : File.t := File.mk "a.png" Demo.png.

Definition bad : File.t := File.mk "b.png" (Blob.mk 10 "image/png" None).

Definition huge : File.t := File.mk "big.png" (Blob.mk 10485761 "image/png" None).

Definition gif : File.t := File.mk "doc.gif" (Blob.mk 10 "image/gif" None).

(** The page after [good] and [bad] were selected, for a request from
    [fromType] to [toType]. *)
Definition page (fromType toType : string) : App.State :=
  App.handleImagesSelected ["u1"; "u2"] [good; bad]
    (App.mkState fromType toType [] false [] "" Demo.settings).

End Sample.

(** ** Facts about the JavaScript primitives *)

Lemma gt_true (a b : Q) : Js.gt a b = true <-> b < a.
Proof.
  unfold Js.gt. change (b < a) with (a > b). rewrite Qgt_alt.
  destruct (a ?= b); split; intros H; congruence.
Qed.

Lemma gt_false (a b : Q) : Js.gt a b = false <-> a <= b.
Proof.
  split; intros H.
  - apply Qnot_lt_le. intros L. apply gt_true in L. congruence.
  - destruct (Js.gt a b) eqn:E; [|reflexivity].
    apply gt_true in E. exfalso. apply (Qlt_not_le _ _ E H).
Qed.

Lemma truthyZ_true (z : Z) : Js.truthyZ z = true <-> z <> 0%Z.
Proof.
  unfold Js.truthyZ. rewrite negb_true_iff, Z.eqb_neq. reflexivity.
Qed.

Lemma Math_round_le (x : Q) (m : Z) : x <= inject_Z m -> (Js.Math_round x <= m)%Z.
Proof.
  intros H. unfold Js.Math_round.
  assert (L : inject_Z (Qfloor (x + (1 # 2))) <= inject_Z m + (1 # 2)).
  { apply Qle_trans with (x + (1 # 2)); [apply Qfloor_le | lra]. }
  destruct (Z_le_gt_dec (Qfloor (x + (1 # 2))) m) as [Hle | Hgt]; [exact Hle|].
  exfalso.
  assert (G : inject_Z (m + 1) <= inject_Z (Qfloor (x + (1 # 2)))).
  { rewrite <- Zle_Qle. lia. }
  rewrite inject_Z_plus in G. change (inject_Z 1) with 1 in G.
  set (k := inject_Z (Qfloor (x + (1 # 2)))) in *.
  set (q := inject_Z m) in *. clearbody k q. lra.
Qed.

Lemma Math_round_ge (x : Q) (m : Z) : inject_Z m <= x -> (m <= Js.Math_round x)%Z.
Proof.
  intros H. unfold Js.Math_round.
  rewrite <- (Qfloor_Z m). apply Qfloor_resp_le. lra.
Qed.

Lemma Math_round_nearest (x : Q) :
  x - (1 # 2) < inject_Z (Js.Math_round x) /\ inject_Z (Js.Math_round x) <= x + (1 # 2).
Proof.
  unfold Js.Math_round. split.
  - pose proof (Qlt_floor (x + (1 # 2))) as L.
    rewrite inject_Z_plus in L. change (inject_Z 1) with 1 in L.
    set (k := inject_Z (Qfloor (x + (1 # 2)))) in *. clearbody k. lra.
  - apply Qfloor_le.
Qed.

Lemma Math_min_le_r (a b : Q) : Js.Math_min a b <= b.
Proof.
  unfold Js.Math_min. destruct (Js.gt a b) eqn:E.
  - apply Qle_refl.
  - apply gt_false; exact E.
Qed.


(** ** Dimension calculator: what the bounds do *)

Section Aspect.

Variables (ow oh : Z).
Hypothesis ow_pos : (0 < ow)%Z.
Hypothesis oh_pos : (0 < oh)%Z.

Lemma W_pos : 0 < inject_Z ow.
Proof. change 0 with (inject_Z 0). rewrite <- Zlt_Qlt. exact ow_pos. Qed.

Lemma H_pos : 0 < inject_Z oh.
Proof. change 0 with (inject_Z 0). rewrite <- Zlt_Qlt. exact oh_pos. Qed.

Lemma aspect_pos : 0 < inject_Z ow / inject_Z oh.
Proof.
  apply Qlt_shift_div_l; [exact H_pos|].
  rewrite Qmult_0_l. exact W_pos.
Qed.

Lemma aspect_height : inject_Z oh * (inject_Z ow / inject_Z oh) == inject_Z ow.
Proof.
  apply Qmult_div_r. intros E. pose proof H_pos as P. rewrite E in P.
  exact (Qlt_irrefl _ P).
Qed.

Lemma aspect_undo (m : Q) :
  (m / (inject_Z ow / inject_Z oh)) * (inject_Z ow / inject_Z oh) == m.
Proof.
  rewrite Qmult_comm. apply Qmult_div_r. intros E. pose proof aspect_pos as P.
  rewrite E in P. exact (Qlt_irrefl _ P).
Qed.

(** The running values after both passes of the aspect-locked branch
    stay within every non-zero bound. *)
Lemma applyBounds_locked_le (maxWidth maxHeight : option Z) :
  (forall mw, maxWidth = Some mw -> mw <> 0%Z ->
              fst (applyBounds ow oh maxWidth maxHeight true) <= inject_Z mw)
  /\ (forall mh, maxHeight = Some mh -> mh <> 0%Z ->
                 snd (applyBounds ow oh maxWidth maxHeight true) <= inject_Z mh).
Proof.
  pose proof aspect_pos as Ha. pose proof aspect_height as HW.
  pose proof aspect_undo as HU.
  unfold applyBounds.
  set (W := inject_Z ow) in *. set (H := inject_Z oh) in *.
  set (a := W / H) in *. clearbody a. clearbody W H.
  split.
  - intros mw -> Hmw. apply truthyZ_true in Hmw. rewrite Hmw. simpl andb.
    pose proof (HU (inject_Z mw)) as Hu.
    set (M := inject_Z mw) in *. clearbody M.
    set (q := M / a) in *. clearbody q.
    destruct (Js.gt W M) eqn:E1.
    + destruct maxHeight as [mh|]; [|simpl; lra].
      destruct (Js.truthyZ mh && Js.gt q (inject_Z mh)) eqn:E2; [|simpl; lra].
      apply andb_true_iff in E2. destruct E2 as [_ E2]. apply gt_true in E2.
      simpl. set (N := inject_Z mh) in *. clearbody N. nra.
    + apply gt_false in E1.
      destruct maxHeight as [mh|]; [|simpl; lra].
      destruct (Js.truthyZ mh && Js.gt H (inject_Z mh)) eqn:E2; [|simpl; lra].
      apply andb_true_iff in E2. destruct E2 as [_ E2]. apply gt_true in E2.
      simpl. set (N := inject_Z mh) in *. clearbody N. nra.
  - intros mh -> Hmh. apply truthyZ_true in Hmh. rewrite Hmh. simpl andb.
    set (N := inject_Z mh) in *. clearbody N.
    destruct maxWidth as [mw|].
    + destruct (Js.truthyZ mw && Js.gt W (inject_Z mw)).
      * destruct (Js.gt (inject_Z mw / a) N) eqn:E; simpl; [lra|].
        apply gt_false in E. exact E.
      * destruct (Js.gt H N) eqn:E; simpl; [lra|].
        apply gt_false in E. exact E.
    + destruct (Js.gt H N) eqn:E; simpl; [lra|].
      apply gt_false in E. exact E.
Qed.

Lemma applyBounds_free_le (maxWidth maxHeight : option Z) :
  (forall mw, maxWidth = Some mw -> mw <> 0%Z ->
              fst (applyBounds ow oh maxWidth maxHeight false) <= inject_Z mw)
  /\ (forall mh, maxHeight = Some mh -> mh <> 0%Z ->
                 snd (applyBounds ow oh maxWidth maxHeight false) <= inject_Z mh).
Proof.
  unfold applyBounds. split.
  - intros mw -> Hmw. apply truthyZ_true in Hmw. rewrite Hmw. simpl.
    apply Math_min_le_r.
  - intros mh -> Hmh. apply truthyZ_true in Hmh. rewrite Hmh. simpl.
    apply Math_min_le_r.
Qed.

End Aspect.





Lemma gt_dec (a b : Q) : Js.gt a b = if Qlt_le_dec b a then true else false.
Proof.
  destruct (Qlt_le_dec b a) as [L | L].
  - apply gt_true; exact L.
  - apply gt_false; exact L.
Qed.

Lemma Math_round_inject_Z (z : Z) : Js.Math_round (inject_Z z) = z.
Proof.
  apply Z.le_antisymm.
  - apply Math_round_le, Qle_refl.
  - apply Math_round_ge, Qle_refl.
Qed.

(** ** The claims about the dimension calculator *)

(** C2, as stated, fails when a bound of 0 is given: the width pass of
    the specification would take an 800 x 600 image to width 0, while the
    code takes a bound of 0 as no bound, skips the width pass and lets the
    height pass give 667 x 500. *)
Lemma calculateDimensions_order_counterexample :
  Double.calculateDimensions 800 600 (Some 0%float) (Some 500%float) (Some true)
  = Double.mkDim 667 500
  /\ Spec.calculateLocked 800 600 (Some 0%float) (Some 500%float) = Double.mkDim 0 0
  /\ Double.calculateDimensions 800 600 (Some 0%float) (Some 500%float) (Some true)
     <> Spec.calculateLocked 800 600 (Some 0%float) (Some 500%float).
Proof.
  split; [vm_compute; reflexivity|]. split; [vm_compute; reflexivity|].
  vm_compute. discriminate.
Qed.

(** C2, amended.  With the aspect lock on (given as [true] or left to its
    default) and every given bound truthy (neither 0 nor [NaN]),
    [calculateDimensions], in double arithmetic, is the width pass, then the
    height pass on the values the width pass left, then rounding: nothing
    re-derives the width after the height pass.  In particular it maps
    (2000, 1000, 1000, -) to 1000 x 500, (1000, 2000, -, 1000) to 500 x 1000
    and (2000, 2000, 1000, 1500) to 1000 x 1000, where the height pass leaves
    the result of the width pass, 1000 x 1000, as it is. *)
Theorem calculateDimensions_width_then_height :
  (forall (ow oh : float) (maxW maxH : option float) (lock : option bool),
      lock <> Some false ->
      (forall m, maxW = Some m -> Double.truthyNumber m = true) ->
      (forall m, maxH = Some m -> Double.truthyNumber m = true) ->
      Double.calculateDimensions ow oh maxW maxH lock
      = Spec.calculateLocked ow oh maxW maxH)
  /\ Double.calculateDimensions 2000 1000 (Some 1000%float) None (Some true)
     = Double.mkDim 1000 500
  /\ Double.calculateDimensions 1000 2000 None (Some 1000%float) (Some true)
     = Double.mkDim 500 1000
  /\ Double.calculateDimensions 2000 2000 (Some 1000%float) (Some 1500%float) (Some true)
     = Double.mkDim 1000 1000
  /\ Spec.widthPass (2000 / 2000) (Some 1000%float) (2000%float, 2000%float)
     = (1000%float, 1000%float)
  /\ Spec.heightPass (2000 / 2000) (Some 1500%float)
       (Spec.widthPass (2000 / 2000) (Some 1000%float) (2000%float, 2000%float))
     = Spec.widthPass (2000 / 2000) (Some 1000%float) (2000%float, 2000%float).
Proof.
  split; [|repeat split; vm_compute; reflexivity].
  intros ow oh maxW maxH lock Hlock HW HH.
  assert (L : match lock with Some b => b | None => true end = true)
    by (destruct lock as [[|]|]; congruence).
  unfold Double.calculateDimensions, Spec.calculateLocked. rewrite L.
  unfold Double.applyBounds, Spec.heightPass, Spec.widthPass, Double.truthy, Double.gt.
  destruct maxW as [mw|], maxH as [mh|];
    try rewrite (HW mw eq_refl); try rewrite (HH mh eq_refl);
    cbn [negb andb fst snd];
    repeat match goal with
      | |- context [PrimFloat.ltb ?x ?y] => destruct (PrimFloat.ltb x y); cbn [fst snd]
      end;
    reflexivity.
Qed.

(** The amended C2 on a request in which the height pass re-derives the
    width: 1600 x 1200 within 800 x 300 gives 400 x 300. *)
Lemma calculateDimensions_width_then_height_witness :
  Double.calculateDimensions 1600 1200 (Some 800%float) (Some 300%float) None
  = Spec.calculateLocked 1600 1200 (Some 800%float) (Some 300%float)
  /\ Spec.calculateLocked 1600 1200 (Some 800%float) (Some 300%float)
     = Double.mkDim 400 300.
Proof.
  split; [|vm_compute; reflexivity].
  apply (proj1 calculateDimensions_width_then_height 1600%float 1200%float
           (Some 800%float) (Some 300%float) None).
  - discriminate.
  - intros m E. injection E as <-. reflexivity.
  - intros m E. injection E as <-. reflexivity.
Defined.

(** Where double arithmetic shows.  For a 70 x 200 image bounded to height
    170 the width [170 * (70 / 200)] is a double just below 59.5 and rounds
    to 59; for an 80 x 1500 image bounded to width 50 the height
    [50 / (80 / 1500)] is a double just below 937.5 and rounds to 937.  The
    exact quotients are the halves 59.5 and 937.5, which round up. *)
Lemma calculateDimensions_halves :
  Double.calculateDimensions 70 200 None (Some 170%float) (Some true)
  = Double.mkDim 59 170
  /\ calculateDimensions 70 200 None (Some 170%Z) (Some true) = mkDim 60 170
  /\ Double.calculateDimensions 80 1500 (Some 50%float) None (Some true)
     = Double.mkDim 50 937
  /\ calculateDimensions 80 1500 (Some 50%Z) None (Some true) = mkDim 50 938.
Proof.
  repeat split; vm_compute; reflexivity.
Qed.




(** C10, as stated, fails: a bound of 0 is falsy, so it is taken as no
    bound at all and the width stays above it. *)
Lemma calculateDimensions_zero_bound_counterexample :
  calculateDimensions 800 600 (Some 0%Z) None (Some true) = mkDim 800 600
  /\ ~ (width (calculateDimensions 800 600 (Some 0%Z) None (Some true)) <= 0)%Z.
Proof.
  split; [reflexivity|]. vm_compute. intros H. apply H. reflexivity.
Qed.

(** C10, amended.  For positive original dimensions, in both aspect modes,
    the returned width never exceeds a non-zero [maxWidth] and the returned
    height never exceeds a non-zero [maxHeight]; this includes the
    aspect-locked case in which the height pass re-derives the width. *)
Theorem calculateDimensions_respects_bounds (ow oh : Z) (maxW maxH : option Z)
    (lock : option bool) :
  (0 < ow)%Z -> (0 < oh)%Z ->
  (forall mw, maxW = Some mw -> mw <> 0%Z ->
              (width (calculateDimensions ow oh maxW maxH lock) <= mw)%Z)
  /\ (forall mh, maxH = Some mh -> mh <> 0%Z ->
                 (height (calculateDimensions ow oh maxW maxH lock) <= mh)%Z).
Proof.
  intros Hw Hh.
  assert (B : forall b,
             (forall mw, maxW = Some mw -> mw <> 0%Z ->
                         fst (applyBounds ow oh maxW maxH b) <= inject_Z mw)
             /\ (forall mh, maxH = Some mh -> mh <> 0%Z ->
                            snd (applyBounds ow oh maxW maxH b) <= inject_Z mh)).
  { intros [|].
    - apply applyBounds_locked_le; assumption.
    - apply applyBounds_free_le. }
  unfold calculateDimensions.
  set (b := match lock with Some b => b | None => true end).
  specialize (B b). destruct B as [BW BH].
  split.
  - intros mw E Hnz. specialize (BW mw E Hnz).
    assert (T : Js.truthy maxW = true) by (rewrite E; apply truthyZ_true, Hnz).
    rewrite T. simpl andb.
    destruct (applyBounds ow oh maxW maxH b) as [w h]. cbn [width].
    apply Math_round_le. exact BW.
  - intros mh E Hnz. specialize (BH mh E Hnz).
    assert (T : Js.truthy maxH = true) by (rewrite E; apply truthyZ_true, Hnz).
    rewrite T, andb_false_r.
    destruct (applyBounds ow oh maxW maxH b) as [w h]. cbn [height].
    apply Math_round_le. exact BH.
Qed.

(** The amended C10 on a request in which the height pass re-derives the
    width: 1600 x 1200 within 800 x 300 gives 400 x 300. *)
Lemma calculateDimensions_respects_bounds_witness :
  (width (calculateDimensions 1600 1200 (Some 800%Z) (Some 300%Z) (Some true)) <= 800)%Z
  /\ (height (calculateDimensions 1600 1200 (Some 800%Z) (Some 300%Z) (Some true)) <= 300)%Z.
Proof.
  destruct (calculateDimensions_respects_bounds 1600 1200 (Some 800%Z) (Some 300%Z)
              (Some true)) as [HW HH]; [reflexivity | reflexivity |].
  split.
  - apply HW; [reflexivity | discriminate].
  - apply HH; [reflexivity | discriminate].
Defined.

(** ** The supported-pair table *)

Lemma normalize_not_jpeg (type : string) : normalize type <> "jpeg".
Proof.
  unfold normalize. destruct (String.eqb_spec type "jpeg"); [discriminate | assumption].
Qed.

(** The predicate handed to [find] compares normalized names. *)
Lemma matches_normalized (sourceFormat targetFormat : string) (c : Conversion.t) :
  matches (normalize sourceFormat) (normalize targetFormat) c
  = String.eqb (normalize (Conversion.from c)) (normalize sourceFormat)
    && String.eqb (normalize (Conversion.to c)) (normalize targetFormat).
Proof.
  assert (K : forall s t,
             String.eqb s (normalize t)
             || (String.eqb (normalize t) "jpg" && String.eqb s "jpeg")
             = String.eqb (normalize s) (normalize t)).
  { intros s t. pose proof (normalize_not_jpeg t) as N.
    unfold normalize at 3. destruct (String.eqb_spec s "jpeg") as [-> | Hs].
    - rewrite andb_true_r, (String.eqb_sym (normalize t) "jpg").
      destruct (String.eqb_spec "jpeg" (normalize t)); [congruence | reflexivity].
    - rewrite andb_false_r, orb_false_r. reflexivity. }
  unfold matches. rewrite !K. reflexivity.
Qed.

Lemma find_none_existsb {A : Type} (p : A -> bool) (l : list A) :
  find p l = None <-> existsb p l = false.
Proof.
  induction l as [|x l IH]; simpl.
  - split; reflexivity.
  - destruct (p x); simpl; [split; discriminate | exact IH].
Qed.

(** The lookup of [convertImage] fails exactly on the pairs that the table
    does not list. *)
Lemma lookup_listed (sourceFormat targetFormat : string) :
  find (matches (normalize sourceFormat) (normalize targetFormat)) supportedConversions
  = None
  <-> Spec.pairListed supportedConversions sourceFormat targetFormat = false.
Proof.
  rewrite find_none_existsb. unfold Spec.pairListed.
  induction supportedConversions as [|c l IH]; simpl.
  - reflexivity.
  - rewrite matches_normalized, !orb_false_iff, IH. reflexivity.
Qed.

(** No listed pair has the same normalized name on both sides. *)
Lemma same_format_not_listed (sourceFormat targetFormat : string) :
  normalize sourceFormat = normalize targetFormat ->
  Spec.pairListed supportedConversions sourceFormat targetFormat = false.
Proof.
  intros E. unfold Spec.pairListed, supportedConversions. rewrite E.
  cbn [existsb Conversion.from Conversion.to].
  change (normalize "jpg") with "jpg". change (normalize "jpeg") with "jpg".
  change (normalize "png") with "png". change (normalize "pdf") with "pdf".
  destruct (String.eqb_spec "jpg" (normalize targetFormat)) as [<- | _];
    [reflexivity|].
  destruct (String.eqb_spec "png" (normalize targetFormat)) as [<- | _];
    reflexivity.
Qed.

Lemma convertImage_not_listed (B : Browser) (imageItem : ImageItem.t)
    (fromType toType : string) (settings : Settings.t) :
  Spec.pairListed supportedConversions fromType toType = false ->
  convertImage B imageItem fromType toType settings
  = (Rejected (Spec.unsupportedPair fromType toType), []).
Proof.
  intros L. apply lookup_listed in L. unfold convertImage. rewrite L. reflexivity.
Qed.

(** ** The claims about the orchestrator's lookup *)

(** C1, on the code.  A request whose two formats have the same normalized
    name never reaches the branch that throws [No conversion or compression
    requested]: no such pair is in the table, so the promise is rejected
    with the unsupported-pair message before anything is decoded or encoded,
    whatever the settings. *)
Theorem convertImage_same_format (B : Browser) (imageItem : ImageItem.t)
    (fromType toType : string) (settings : Settings.t) :
  normalize fromType = normalize toType ->
  convertImage B imageItem fromType toType settings
  = (Rejected (Spec.unsupportedPair fromType toType), [])
  /\ Spec.unsupportedPair fromType toType <> Spec.noOperationRequested.
Proof.
  intros E. split.
  - apply convertImage_not_listed, same_format_not_listed, E.
  - unfold Spec.unsupportedPair, Spec.noOperationRequested. simpl. discriminate.
Qed.

(** PNG to PNG with compression off is rejected as unsupported. *)
Lemma convertImage_same_format_witness :
  convertImage Demo.browser Demo.item "png" "png" Demo.settings
  = (Rejected "Conversion from PNG to PNG is not supported", [])
  /\ "Conversion from PNG to PNG is not supported" <> Spec.noOperationRequested.
Proof.
  apply (convertImage_same_format Demo.browser Demo.item "png" "png" Demo.settings).
  reflexivity.
Defined.

(** C5, as stated, fails in how the failure reaches the caller: for PDF to
    PNG no result record is returned, with [success: false] or otherwise;
    the error is thrown at lines 36-38, before the [try] block, so the
    promise is rejected. *)
Lemma convertImage_unsupported_thrown_counterexample :
  convertImage Demo.browser Demo.item "pdf" "png" Demo.settings
  = (Rejected "Conversion from PDF to PNG is not supported", [])
  /\ ~ (exists r log,
          convertImage Demo.browser Demo.item "pdf" "png" Demo.settings
          = (Resolved r, log)).
Proof.
  split; [reflexivity|]. intros [r [log E]]. discriminate E.
Qed.

(** C5, amended.  For every pair that the table does not list, the promise
    of [convertImage] is rejected with the unsupported-pair error (the error
    is thrown, not returned in a result record) and no canvas, encoder or
    page-writer call is made: no other conversion is tried.  This is so for
    the document format as source with any target. *)
Theorem convertImage_unsupported_pair :
  (forall (B : Browser) (imageItem : ImageItem.t) (fromType toType : string)
          (settings : Settings.t),
      Spec.pairListed supportedConversions fromType toType = false ->
      convertImage B imageItem fromType toType settings
      = (Rejected (Spec.unsupportedPair fromType toType), []))
  /\ (forall (B : Browser) (imageItem : ImageItem.t) (toType : string)
             (settings : Settings.t),
         convertImage B imageItem "pdf" toType settings
         = (Rejected (Spec.unsupportedPair "pdf" toType), [])).
Proof.
  split.
  - exact convertImage_not_listed.
  - intros B imageItem toType settings. apply convertImage_not_listed. reflexivity.
Qed.

(** A pair outside the table: PNG to GIF. *)
Lemma convertImage_unsupported_pair_witness :
  convertImage Demo.browser Demo.item "png" "gif" Demo.settings
  = (Rejected "Conversion from PNG to GIF is not supported", []).
Proof.
  apply (proj1 convertImage_unsupported_pair Demo.browser Demo.item "png" "gif"
           Demo.settings).
  reflexivity.
Defined.

(** ** Byte-size accounting *)

Lemma compressionRatio_sign (originalSize finalSize : Z) :
  (0 < originalSize)%Z ->
  ((originalSize < finalSize)%Z -> Spec.compressionRatio originalSize finalSize < 0)
  /\ ((finalSize <= originalSize)%Z -> 0 <= Spec.compressionRatio originalSize finalSize).
Proof.
  intros Hpos. unfold Spec.compressionRatio.
  pose proof (W_pos originalSize Hpos) as PO.
  assert (NZ : ~ inject_Z originalSize == 0).
  { intros E. rewrite E in PO. exact (Qlt_irrefl _ PO). }
  pose proof (Qmult_div_r (inject_Z originalSize - inject_Z finalSize)
                (inject_Z originalSize) NZ) as D.
  split; intros Hcmp.
  - assert (L : inject_Z originalSize < inject_Z finalSize)
      by (rewrite <- Zlt_Qlt; exact Hcmp).
    set (O := inject_Z originalSize) in *. set (F := inject_Z finalSize) in *.
    clearbody O F. set (x := (O - F) / O) in *. clearbody x. nra.
  - assert (L : inject_Z finalSize <= inject_Z originalSize)
      by (rewrite <- Zle_Qle; exact Hcmp).
    set (O := inject_Z originalSize) in *. set (F := inject_Z finalSize) in *.
    clearbody O F. set (x := (O - F) / O) in *. clearbody x. nra.
Qed.

(** What a resolved [convertImage] carries: either the failure record of
    the [catch] block or a success record whose [compressionStats] are
    rebuilt from the two byte sizes. *)
Lemma convertImage_resolved (B : Browser) (imageItem : ImageItem.t)
    (fromType toType : string) (settings : Settings.t)
    (r : ConversionResult.t) (log : list Event) :
  convertImage B imageItem fromType toType settings = (Resolved r, log) ->
  ConversionResult.success r = true ->
  ConversionResult.compressionStats r
  = Some (CompressionStats.mk
            (Blob.size (ImageItem.file imageItem))
            (Blob.size (ConversionResult.blob r))
            (Spec.compressionRatio (Blob.size (ImageItem.file imageItem))
               (Blob.size (ConversionResult.blob r)))
            (Js.orElse (Settings.quality settings) 1)).
Proof.
  unfold convertImage.
  destruct (find _ supportedConversions) as [c|]; [|discriminate].
  match goal with
  | |- context [await ?p _] => destruct p as [[[[blob stats] fileName] | message |] l]
  end; simpl.
  - intros E. injection E as <- _. intros _. reflexivity.
  - intros E. injection E as <- _. simpl. discriminate.
  - discriminate.
Qed.

(** ** The claim about the reported ratio *)

(** C6.  Every successful conversion of a file of positive byte size
    reports compression statistics whose ratio is exactly
    [(originalSize - finalSize) / originalSize * 100] for the file's size
    and the size of the returned blob; the ratio is negative when the output
    is larger than the input and is not clamped. *)
Theorem convertImage_compressionRatio (B : Browser) (imageItem : ImageItem.t)
    (fromType toType : string) (settings : Settings.t)
    (r : ConversionResult.t) (log : list Event) :
  convertImage B imageItem fromType toType settings = (Resolved r, log) ->
  ConversionResult.success r = true ->
  (0 < Blob.size (ImageItem.file imageItem))%Z ->
  exists stats,
    ConversionResult.compressionStats r = Some stats
    /\ CompressionStats.originalSize stats = Blob.size (ImageItem.file imageItem)
    /\ CompressionStats.finalSize stats = Blob.size (ConversionResult.blob r)
    /\ CompressionStats.compressionRatio stats
       = Spec.compressionRatio (CompressionStats.originalSize stats)
           (CompressionStats.finalSize stats)
    /\ ((CompressionStats.originalSize stats < CompressionStats.finalSize stats)%Z ->
        CompressionStats.compressionRatio stats < 0)
    /\ ((CompressionStats.finalSize stats <= CompressionStats.originalSize stats)%Z ->
        0 <= CompressionStats.compressionRatio stats).
Proof.
  intros Hrun Hok Hpos.
  rewrite (convertImage_resolved B imageItem fromType toType settings r log Hrun Hok).
  eexists. split; [reflexivity|]. cbn.
  repeat split; try reflexivity;
    apply (compressionRatio_sign _ (Blob.size (ConversionResult.blob r)) Hpos).
Qed.

(** A 10000-byte PNG converted to a 12000-byte JPEG reports -20 percent. *)
Lemma convertImage_compressionRatio_witness :
  exists r log stats,
    convertImage Demo.browser Demo.item "png" "jpg" Demo.settings = (Resolved r, log)
    /\ ConversionResult.compressionStats r = Some stats
    /\ CompressionStats.compressionRatio stats == - (20)
    /\ CompressionStats.compressionRatio stats < 0.
Proof.
  eexists. eexists.
  destruct (convertImage_compressionRatio Demo.browser Demo.item "png" "jpg"
              Demo.settings _ _ eq_refl eq_refl eq_refl)
    as [stats [Hs [Ho [Hf [Hr [Hneg _]]]]]].
  exists stats. split; [reflexivity|]. split; [exact Hs|].
  injection Hs as <-. split; [reflexivity|]. apply Hneg. reflexivity.
Defined.

(** ** The claim about thumbnails *)

(** C9.  For every image that decodes (to positive dimensions, with a
    canvas context at hand), [generateThumbnail] resolves to the data URL of
    one encoder call, JPEG at quality 0.8, on a canvas sized by the
    single-box rule; it returns that string alone, no statistics. *)
Theorem generateThumbnail_box (B : Browser) (file : Blob.t) (maxSize : option Q)
    (imgWidth imgHeight : Z) :
  Blob.pixels file = Some (imgWidth, imgHeight) ->
  (0 < imgWidth)%Z -> (0 < imgHeight)%Z ->
  getContext B = true ->
  let box :=
    Spec.thumbnailBox (match maxSize with Some m => m | None => 120 end)
      imgWidth imgHeight in
  generateThumbnail B file maxSize
  = (Resolved (toDataURL B file box "image/jpeg" (4 # 5)),
     [DrawImage file (Some box); ToDataURL box "image/jpeg" (4 # 5)]).
Proof.
  intros Hpix _ _ Hctx box. subst box.
  unfold generateThumbnail, loadImage, Spec.thumbnailBox.
  rewrite Hpix. cbn [resolve await]. rewrite Hctx. cbn [negb].
  rewrite gt_dec.
  destruct (Qlt_le_dec 1 (inject_Z imgWidth / inject_Z imgHeight)); reflexivity.
Qed.

(** A 2000 x 1000 image in a box of 80 gives an 80 x 40 JPEG thumbnail. *)
Lemma generateThumbnail_box_witness :
  exists w h,
    generateThumbnail Demo.browser Demo.png (Some 80)
    = (Resolved "data:image/jpeg;base64,AAAA",
       [DrawImage Demo.png (Some (w, h)); ToDataURL (w, h) "image/jpeg" (4 # 5)])
    /\ w == 80 /\ h == 40.
Proof.
  eexists. eexists. split.
  - apply (generateThumbnail_box Demo.browser Demo.png (Some 80) 2000 1000);
      reflexivity.
  - split; reflexivity.
Defined.

(** ** What reaches the encoders *)

Lemma snd_await {A C : Type} (p : Promise A) (k : A -> Promise C) :
  snd (await p k)
  = match fst p with
    | Resolved a => (snd p ++ snd (k a))%list
    | _ => snd p
    end.
Proof.
  destruct p as [[a | message |] l]; simpl; try reflexivity.
  destruct (k a); reflexivity.
Qed.

Lemma toBlobQualities_app (l1 l2 : list Event) :
  toBlobQualities (l1 ++ l2) = (toBlobQualities l1 ++ toBlobQualities l2)%list.
Proof.
  induction l1 as [|e l1 IH]; [reflexivity|].
  destruct e; simpl; rewrite IH; reflexivity.
Qed.

(** [compressImage] calls [toBlob] once, with [settings.quality] as it is. *)
Lemma compressImage_quality (B : Browser) (file : Blob.t) (settings : Settings.t)
    (d : Z * Z) :
  Blob.pixels file = Some d ->
  getContext B = true ->
  toBlobQualities (snd (compressImage B file settings)) = [Settings.quality settings].
Proof.
  intros Hpix Hctx. destruct d as [w h].
  unfold compressImage, loadImage. rewrite Hpix. cbn [resolve await].
  rewrite Hctx. cbn [negb].
  destruct (calculateDimensions _ _ _ _ _) as [w' h'].
  destruct (Js.includes "png" (Blob.type file)); cbn;
    destruct (toBlob B _ _ _ _); reflexivity.
Qed.

(** With compression enabled, [convertImageFormat] calls [toBlob] once, with
    [settings.quality] as it is. *)
Lemma convertImageFormat_quality (B : Browser) (file : Blob.t)
    (fromType toType : string) (settings : Settings.t) (d : Z * Z) :
  Blob.pixels file = Some d ->
  getContext B = true ->
  Settings.enableCompression settings = Some true ->
  toBlobQualities (snd (convertImageFormat B file fromType toType settings))
  = [Settings.quality settings].
Proof.
  intros Hpix Hctx Hen. destruct d as [w h].
  unfold convertImageFormat, loadImage. rewrite Hpix. cbn [resolve await].
  rewrite Hctx, Hen. cbn [negb Js.truthyB].
  destruct (calculateDimensions _ _ _ _ _) as [w' h'].
  destruct (String.eqb toType "jpg" || String.eqb toType "jpeg"); cbn;
    destruct (toBlob B _ _ _ _); reflexivity.
Qed.

(** With compression enabled, the only [toBlob] call of [convertImageToPDF]
    is the one of [compressImage]. *)
Lemma convertImageToPDF_quality (B : Browser) (file : Blob.t) (settings : Settings.t)
    (d : Z * Z) :
  Blob.pixels file = Some d ->
  getContext B = true ->
  Settings.enableCompression settings = Some true ->
  toBlobQualities (snd (convertImageToPDF B file settings)) = [Settings.quality settings].
Proof.
  intros Hpix Hctx Hen.
  pose proof (compressImage_quality B file settings d Hpix Hctx) as Hc.
  unfold convertImageToPDF, loadImage. rewrite Hpix. destruct d as [w h].
  cbn [resolve await]. rewrite Hctx, Hen. cbn [negb Js.truthyB].
  destruct (compressImage B file settings) as [[[cblob cstats] | message |] clog];
    cbn in Hc |- *; try exact Hc.
  destruct (Blob.pixels cblob) as [[pw ph]|]; cbn.
  - destruct (pagePlacement _ _ _ _) as [[[x y] fw] fh]. cbn.
    destruct (pdfOutput B _ _ _ _ _); cbn;
      rewrite !toBlobQualities_app, Hc; reflexivity.
  - rewrite !app_nil_r. exact Hc.
Qed.

(** ** The claim about the quality handed to the encoders *)

(** C3, as stated, fails: with compression enabled and quality 1.5 the
    encoder is called with 1.5, not with the clamped 1.0, and with quality 0
    the bitmap encoder is called with 0, not with 0.1. *)
Lemma quality_clamp_counterexample :
  encoderQualities
    (snd (convertImage Demo.browser Demo.item "png" "jpg" (Demo.compress (3 # 2))))
  = [3 # 2]
  /\ Spec.clampQuality (3 # 2) == 1
  /\ encoderQualities
       (snd (convertImage Demo.browser Demo.item "png" "jpg" (Demo.compress 0)))
     = [0]
  /\ Spec.clampQuality 0 == 1 # 10
  /\ ~ (forall q,
           In q (encoderQualities
                   (snd (convertImage Demo.browser Demo.item "png" "jpg"
                           (Demo.compress (3 # 2))))) ->
           q == Spec.clampQuality (3 # 2)).
Proof.
  repeat split; try (vm_compute; reflexivity).
  intros H. specialize (H (3 # 2) (or_introl eq_refl)). vm_compute in H. discriminate H.
Qed.

(** C3, amended.  Nothing clamps the quality: for a listed pair, with
    compression enabled, a decodable image and a canvas context, the engine
    calls [canvas.toBlob] exactly once and hands it [settings.quality] as it
    was given, in range or not. *)
Theorem quality_passed_unchanged (B : Browser) (imageItem : ImageItem.t)
    (fromType toType : string) (settings : Settings.t) (d : Z * Z) :
  Spec.pairListed supportedConversions fromType toType = true ->
  Settings.enableCompression settings = Some true ->
  Blob.pixels (ImageItem.file imageItem) = Some d ->
  getContext B = true ->
  toBlobQualities (snd (convertImage B imageItem fromType toType settings))
  = [Settings.quality settings].
Proof.
  intros Hlisted Hen Hpix Hctx.
  pose proof (convertImageToPDF_quality B _ settings d Hpix Hctx Hen) as Hpdf.
  pose proof (convertImageFormat_quality B _ fromType toType settings d Hpix Hctx Hen)
    as Hfmt.
  unfold convertImage.
  destruct (find _ supportedConversions) as [c|] eqn:F.
  - rewrite Hen. cbn [Js.truthyB]. rewrite orb_true_r.
    destruct (String.eqb toType "pdf").
    + destruct (convertImageToPDF B _ settings) as [[[blob stats] | message |] l];
        cbn in Hpdf |- *; rewrite ?app_nil_r; exact Hpdf.
    + destruct (convertImageFormat B _ fromType toType settings)
        as [[[blob stats] | message |] l];
        cbn in Hfmt |- *; rewrite ?app_nil_r; exact Hfmt.
  - apply lookup_listed in F. congruence.
Qed.

(** Quality 1.5 reaches [toBlob] as 1.5. *)
Lemma quality_passed_unchanged_witness :
  toBlobQualities
    (snd (convertImage Demo.browser Demo.item "png" "jpg" (Demo.compress (3 # 2))))
  = [Some (3 # 2)].
Proof.
  apply (quality_passed_unchanged Demo.browser Demo.item "png" "jpg"
           (Demo.compress (3 # 2)) (2000, 1000)%Z); reflexivity.
Defined.

(** ** The document assembler *)

Arguments pagePlacement : simpl never.

(** The four placement formulas, and the margins of a raster that is wider
    than tall on a page that is not wider than tall. *)
Lemma pagePlacement_spec (W H : Q) (rw rh : Z) (x y fw fh : Q) :
  pagePlacement W H rw rh = (x, y, fw, fh) ->
  let a := inject_Z rw / inject_Z rh in
  (W / H < a -> fw = W - 20 /\ fh = fw / a)
  /\ (a <= W / H -> fh = H - 20 /\ fw = fh * a)
  /\ x = (W - fw) / 2
  /\ y = (H - fh) / 2
  /\ ((0 < rh)%Z -> (rh < rw)%Z -> 0 < W -> W <= H ->
      x == 10 /\ W - (x + fw) == 10).
Proof.
  unfold pagePlacement. intros E. set (a := inject_Z rw / inject_Z rh) in *.
  rewrite gt_dec in E.
  destruct (Qlt_le_dec (W / H) a) as [L | L]; injection E as <- <- <- <-.
  - split; [intros _; split; reflexivity|].
    split; [intros L'; exfalso; exact (Qlt_not_le _ _ L L')|].
    split; [reflexivity|]. split; [reflexivity|].
    intros _ _ _ _. split; field.
  - split; [intros L'; exfalso; exact (Qlt_not_le _ _ L' L)|].
    split; [intros _; split; reflexivity|].
    split; [reflexivity|]. split; [reflexivity|].
    intros Hrh Hwide HW HWH. exfalso.
    assert (Hrw : (0 < rw)%Z) by lia.
    pose proof (aspect_height rw rh Hrh) as Ah. fold a in Ah.
    pose proof (H_pos rh Hrh) as Ph.
    assert (Hlt : inject_Z rh < inject_Z rw) by (rewrite <- Zlt_Qlt; exact Hwide).
    assert (PH : 0 < H) by lra.
    assert (NZ : ~ H == 0) by (intros Z0; rewrite Z0 in PH; exact (Qlt_irrefl _ PH)).
    pose proof (Qmult_div_r W H NZ) as D.
    set (p := W / H) in *. clearbody p.
    set (R := inject_Z rh) in *. set (S := inject_Z rw) in *. clearbody R S a.
    assert (A1 : 1 < a) by nra.
    assert (P1 : p <= 1) by nra.
    lra.
Qed.

Lemma compressImage_no_AddImage (B : Browser) (file : Blob.t) (settings : Settings.t)
    (format : string) (x y w h : Q) :
  ~ In (AddImage format x y w h) (snd (compressImage B file settings)).
Proof.
  unfold compressImage, loadImage.
  destruct (Blob.pixels file) as [[iw ih]|]; cbn; [|tauto].
  destruct (getContext B); cbn; [|tauto].
  destruct (calculateDimensions _ _ _ _ _) as [w' h'].
  destruct (Js.includes "png" (Blob.type file)); cbn;
    destruct (toBlob B _ _ _ _); cbn; intuition discriminate.
Qed.

(** Every [addImage] call of [convertImageToPDF] places the raster that was
    drawn on the canvas, by [pagePlacement] on that raster's size. *)
Lemma convertImageToPDF_embeds (B : Browser) (file : Blob.t) (settings : Settings.t)
    (format : string) (x y fw fh : Q) :
  In (AddImage format x y fw fh) (snd (convertImageToPDF B file settings)) ->
  exists raster rw rh,
    In (DrawImage raster None) (snd (convertImageToPDF B file settings))
    /\ Blob.pixels raster = Some (rw, rh)
    /\ pagePlacement (pdfWidth B) (pdfHeight B) rw rh = (x, y, fw, fh).
Proof.
  unfold convertImageToPDF, loadImage.
  destruct (Blob.pixels file) as [[iw ih]|] eqn:Hpix; cbn; [|tauto].
  destruct (getContext B); cbn; [|tauto].
  destruct (Js.truthyB (Settings.enableCompression settings)).
  - pose proof (compressImage_no_AddImage B file settings format x y fw fh) as Hno.
    destruct (compressImage B file settings) as [[[cblob cstats] | message |] clog];
      cbn in Hno |- *; try (intros Hin; contradiction).
    destruct (Blob.pixels cblob) as [[pw ph]|] eqn:Hc; cbn;
      [|rewrite !app_nil_r; intros Hin; contradiction].
    destruct (pagePlacement _ _ pw ph) as [[[x' y'] fw'] fh'] eqn:Hp. cbn.
    assert (K : forall tail,
               In (AddImage format x y fw fh)
                 ((clog ++ []) ++ DrawImage cblob None :: tail) ->
               In (AddImage format x y fw fh) tail).
    { intros tail Hin. rewrite app_nil_r in Hin. apply in_app_or in Hin.
      destruct Hin as [Hin | [Hin | Hin]]; [contradiction | discriminate | exact Hin]. }
    destruct (pdfOutput B _ _ _ _ _); cbn; intros Hin; apply K in Hin;
      (destruct Hin as [Hin | [Hin | []]]; [discriminate|]);
      injection Hin as <- <- <- <- <-;
      exists cblob, pw, ph; (split; [apply in_or_app; right; left; reflexivity|]);
      (split; [exact Hc | exact Hp]).
  - cbn. destruct (pagePlacement _ _ iw ih) as [[[x' y'] fw'] fh'] eqn:Hp. cbn.
    destruct (pdfOutput B _ _ _ _ _); cbn; intros Hin;
      (destruct Hin as [Hin | [Hin | [Hin | []]]]; try discriminate);
      injection Hin as <- <- <- <- <-;
      exists file, iw, ih; (split; [left; reflexivity|]);
      (split; [exact Hpix | exact Hp]).
Qed.

(** Without compression, a decodable image is always placed on the page,
    at its native size. *)
Lemma convertImageToPDF_embeds_original (B : Browser) (file : Blob.t)
    (settings : Settings.t) (iw ih : Z) :
  Blob.pixels file = Some (iw, ih) ->
  getContext B = true ->
  Js.truthyB (Settings.enableCompression settings) = false ->
  exists x y fw fh,
    pagePlacement (pdfWidth B) (pdfHeight B) iw ih = (x, y, fw, fh)
    /\ snd (convertImageToPDF B file settings)
       = [DrawImage file None;
          ToDataURL (inject_Z iw, inject_Z ih) "image/jpeg"
            (Js.orElse (Settings.quality settings) (19 # 20));
          AddImage "JPEG" x y fw fh].
Proof.
  intros Hpix Hctx Hen. unfold convertImageToPDF, loadImage.
  rewrite Hpix. cbn [resolve await]. rewrite Hctx, Hen. cbn.
  destruct (pagePlacement _ _ iw ih) as [[[x y] fw] fh].
  exists x, y, fw, fh. split; [reflexivity|].
  cbn. destruct (pdfOutput B _ _ _ _ _); reflexivity.
Qed.

(** ** The claim about the placement on the page *)

(** C7.  Every raster that [convertImageToPDF] embeds is placed by the
    page-fit rule on its own size: if its aspect ratio exceeds the page's,
    [finalW = pageW - 20] and [finalH = finalW / imgAspect], otherwise
    [finalH = pageH - 20] and [finalW = finalH * imgAspect]; it is centred at
    [x = (pageW - finalW) / 2], [y = (pageH - finalH) / 2]; and a raster
    wider than tall, on a page not wider than tall, has a left and a right
    margin of exactly 10. *)
Theorem convertImageToPDF_placement (B : Browser) (file : Blob.t)
    (settings : Settings.t) (x y finalW finalH : Q) :
  In (AddImage "JPEG" x y finalW finalH) (snd (convertImageToPDF B file settings)) ->
  exists raster rasterW rasterH,
    In (DrawImage raster None) (snd (convertImageToPDF B file settings))
    /\ Blob.pixels raster = Some (rasterW, rasterH)
    /\ let imgAspect := inject_Z rasterW / inject_Z rasterH in
       let pageW := pdfWidth B in
       let pageH := pdfHeight B in
       (pageW / pageH < imgAspect ->
        finalW = pageW - 20 /\ finalH = finalW / imgAspect)
       /\ (imgAspect <= pageW / pageH ->
           finalH = pageH - 20 /\ finalW = finalH * imgAspect)
       /\ x = (pageW - finalW) / 2
       /\ y = (pageH - finalH) / 2
       /\ ((0 < rasterH)%Z -> (rasterH < rasterW)%Z -> 0 < pageW -> pageW <= pageH ->
           x == 10 /\ pageW - (x + finalW) == 10).
Proof.
  intros Hin.
  destruct (convertImageToPDF_embeds B file settings "JPEG" x y finalW finalH Hin)
    as [raster [rw [rh [Hdraw [Hpix Hplace]]]]].
  exists raster, rw, rh. split; [exact Hdraw|]. split; [exact Hpix|].
  exact (pagePlacement_spec _ _ _ _ _ _ _ _ Hplace).
Qed.

(** A 2000 x 1000 raster on the A4 page is placed 190 wide at [x = 10],
    and the placement is the rule's. *)
Lemma convertImageToPDF_placement_witness :
  exists raster rasterW rasterH,
    In (DrawImage raster None)
      (snd (convertImageToPDF Demo.browser Demo.png Demo.settings))
    /\ Blob.pixels raster = Some (rasterW, rasterH)
    /\ let imgAspect := inject_Z rasterW / inject_Z rasterH in
       (210 / 297 < imgAspect -> 190 = 210 - 20 /\ (190000 # 2000) = 190 / imgAspect)
       /\ (imgAspect <= 210 / 297 ->
           (190000 # 2000) = 297 - 20 /\ 190 = (190000 # 2000) * imgAspect)
       /\ (20 # 2) = (210 - 190) / 2
       /\ (404000 # 4000) = (297 - (190000 # 2000)) / 2
       /\ ((0 < rasterH)%Z -> (rasterH < rasterW)%Z -> 0 < 210 -> 210 <= 297 ->
           (20 # 2) == 10 /\ 210 - ((20 # 2) + 190) == 10).
Proof.
  apply (convertImageToPDF_placement Demo.browser Demo.png Demo.settings
           (20 # 2) (404000 # 4000) 190 (190000 # 2000)).
  right; right; left; reflexivity.
Defined.

(** ** The claim about the assembler's statistics *)

(** C8, as stated, fails: with compression disabled the record that
    [convertImageToPDF] returns has the original size, the document size and
    the quality, and no [compressionRatio] at all. *)
Lemma convertImageToPDF_ratio_counterexample :
  exists blob stats log,
    convertImageToPDF Demo.browser Demo.png Demo.settings = (Resolved (blob, stats), log)
    /\ Js.truthyB (Settings.enableCompression Demo.settings) = false
    /\ Stats.compressionRatio stats = None
    /\ Stats.compressionRatio stats
       <> Some (Spec.compressionRatio (Stats.originalSize stats)
                  (Stats.compressedSize stats)).
Proof.
  eexists. eexists. eexists. split; [reflexivity|].
  split; [reflexivity|]. split; [reflexivity|]. discriminate.
Qed.

(** C8, amended.  When [convertImageToPDF] resolves: with compression
    enabled its statistics are those of the internal [compressImage] run;
    with compression disabled they are a record made of the original byte
    size, the byte size of the document and the quality given to the
    embedding encoder, without a [compressionRatio].  The ratio appears only
    in the result of [convertImage], which computes it from the original
    size and the document size by the same formula. *)
Theorem convertImageToPDF_stats (B : Browser) (file : Blob.t) (settings : Settings.t)
    (blob : Blob.t) (stats : Stats.t) (log : list Event) :
  convertImageToPDF B file settings = (Resolved (blob, stats), log) ->
  (Js.truthyB (Settings.enableCompression settings) = true ->
   exists compressed compressLog,
     compressImage B file settings = (Resolved (compressed, stats), compressLog))
  /\ (Js.truthyB (Settings.enableCompression settings) = false ->
      stats = Stats.mk (Blob.size file) (Blob.size blob) None
                (Some (Js.orElse (Settings.quality settings) (19 # 20))) None None
      /\ exists canvas,
           In (ToDataURL canvas "image/jpeg"
                 (Js.orElse (Settings.quality settings) (19 # 20))) log)
  /\ (forall (imageItem : ImageItem.t) (fromType : string)
             (r : ConversionResult.t) (log' : list Event),
         ImageItem.file imageItem = file ->
         convertImage B imageItem fromType "pdf" settings = (Resolved r, log') ->
         ConversionResult.success r = true ->
         exists final,
           ConversionResult.compressionStats r = Some final
           /\ CompressionStats.compressionRatio final
              = Spec.compressionRatio (Blob.size file)
                  (Blob.size (ConversionResult.blob r))).
Proof.
  intros Hrun. split; [|split].
  - intros Hen. revert Hrun. unfold convertImageToPDF, loadImage.
    destruct (Blob.pixels file) as [[iw ih]|]; cbn; [|discriminate].
    destruct (getContext B); cbn; [|discriminate].
    rewrite Hen.
    destruct (compressImage B file settings) as [[[cblob cstats] | message |] clog];
      cbn; try discriminate.
    destruct (Blob.pixels cblob) as [[pw ph]|]; cbn; [|discriminate].
    destruct (pagePlacement _ _ pw ph) as [[[x y] fw] fh]. cbn.
    destruct (pdfOutput B _ _ _ _ _); cbn; [discriminate|].
    intros E. injection E as _ <- _. exists cblob, clog. reflexivity.
  - intros Hen. revert Hrun. unfold convertImageToPDF, loadImage.
    destruct (Blob.pixels file) as [[iw ih]|]; cbn; [|discriminate].
    destruct (getContext B); cbn; [|discriminate].
    rewrite Hen. cbn.
    destruct (pagePlacement _ _ iw ih) as [[[x y] fw] fh]. cbn.
    destruct (pdfOutput B _ _ _ _ _); cbn; [discriminate|].
    intros E. injection E as <- <- <-. split; [reflexivity|].
    eexists. right; left; reflexivity.
  - intros imageItem fromType r log' Hfile Hconv Hok.
    eexists. split.
    + exact (convertImage_resolved B imageItem fromType "pdf" settings r log' Hconv Hok).
    + cbn. rewrite Hfile. reflexivity.
Qed.

(** The amended C8 on the counterexample's run: the record is made of
    10000, 15000 and the quality 0.8. *)
Lemma convertImageToPDF_stats_witness :
  exists blob log,
    convertImageToPDF Demo.browser Demo.png Demo.settings
    = (Resolved (blob, Stats.mk 10000 15000 None (Some (4 # 5)) None None), log)
    /\ Stats.mk 10000 15000 None (Some (4 # 5)) None None
       = Stats.mk (Blob.size Demo.png) (Blob.size blob) None
           (Some (Js.orElse (Settings.quality Demo.settings) (19 # 20))) None None.
Proof.
  eexists. eexists. split; [reflexivity|].
  apply (convertImageToPDF_stats Demo.browser Demo.png Demo.settings _ _ _ eq_refl).
  reflexivity.
Defined.

(** * Further properties of the engine *)

(** ** Dimension calculator: shrinking only, and keeping the aspect *)

Lemma Math_min_le_l (a b : Q) : Js.Math_min a b <= a.
Proof.
  unfold Js.Math_min. destruct (Js.gt a b) eqn:E.
  - apply gt_true in E. apply Qlt_le_weak, E.
  - apply Qle_refl.
Qed.

(** Neither running value ever exceeds the original it started from. *)
Lemma applyBounds_le_original (ow oh : Z) (maxW maxH : option Z) (lock : bool) :
  (0 < ow)%Z -> (0 < oh)%Z ->
  fst (applyBounds ow oh maxW maxH lock) <= inject_Z ow
  /\ snd (applyBounds ow oh maxW maxH lock) <= inject_Z oh.
Proof.
  intros Hw Hh.
  pose proof (aspect_pos ow oh Hw Hh) as Ha.
  pose proof (aspect_height ow oh Hh) as HW.
  pose proof (aspect_undo ow oh Hw Hh) as HU.
  unfold applyBounds.
  set (W := inject_Z ow) in *. set (H := inject_Z oh) in *.
  set (a := W / H) in *. clearbody a. clearbody W H.
  destruct lock.
  - assert (K : forall (w h : Q), w <= W -> h <= H -> h * a == w ->
               fst (match maxH with
                    | Some mh =>
                        if Js.truthyZ mh && Js.gt h (inject_Z mh)
                        then (inject_Z mh * a, inject_Z mh) else (w, h)
                    | None => (w, h)
                    end) <= W
               /\ snd (match maxH with
                       | Some mh =>
                           if Js.truthyZ mh && Js.gt h (inject_Z mh)
                           then (inject_Z mh * a, inject_Z mh) else (w, h)
                       | None => (w, h)
                       end) <= H).
    { intros w h Lw Lh Eq. destruct maxH as [mh|]; [|simpl; split; assumption].
      destruct (Js.truthyZ mh && Js.gt h (inject_Z mh)) eqn:E; [|simpl; split; assumption].
      apply andb_true_iff in E. destruct E as [_ E]. apply gt_true in E.
      simpl. set (N := inject_Z mh) in *. clearbody N. split; nra. }
    destruct maxW as [mw|].
    + destruct (Js.truthyZ mw && Js.gt W (inject_Z mw)) eqn:E.
      * apply andb_true_iff in E. destruct E as [_ E]. apply gt_true in E.
        pose proof (HU (inject_Z mw)) as Hu.
        set (M := inject_Z mw) in *. clearbody M.
        set (q := M / a) in *. clearbody q.
        apply K; [lra | nra | exact Hu].
      * apply K; [lra | lra | exact HW].
    + apply K; [lra | lra | exact HW].
  - split.
    + destruct maxW as [mw|]; [|apply Qle_refl].
      destruct (Js.truthyZ mw); [apply Math_min_le_l | apply Qle_refl].
    + destruct maxH as [mh|]; [|apply Qle_refl].
      destruct (Js.truthyZ mh); [apply Math_min_le_l | apply Qle_refl].
Qed.

(** X1.  [calculateDimensions] never enlarges: for positive original
    dimensions, whatever the bounds and the aspect mode, the returned width
    is at most the original width and the returned height at most the
    original height. *)
Theorem calculateDimensions_never_enlarges (ow oh : Z) (maxW maxH : option Z)
    (lock : option bool) :
  (0 < ow)%Z -> (0 < oh)%Z ->
  (width (calculateDimensions ow oh maxW maxH lock) <= ow)%Z
  /\ (height (calculateDimensions ow oh maxW maxH lock) <= oh)%Z.
Proof.
  intros Hw Hh. unfold calculateDimensions.
  destruct (negb (Js.truthy maxW) && negb (Js.truthy maxH)).
  - cbn. split; apply Z.le_refl.
  - destruct (applyBounds_le_original ow oh maxW maxH
                (match lock with Some b => b | None => true end) Hw Hh) as [L1 L2].
    destruct (applyBounds _ _ _ _ _) as [w h]. cbn in *.
    split; apply Math_round_le; assumption.
Qed.

(** A 100 x 50 image under a bound of 4000 x 4000 keeps its size. *)
Lemma calculateDimensions_never_enlarges_witness :
  (width (calculateDimensions 100 50 (Some 4000%Z) (Some 4000%Z) (Some true)) <= 100)%Z
  /\ (height (calculateDimensions 100 50 (Some 4000%Z) (Some 4000%Z) (Some true)) <= 50)%Z.
Proof.
  apply (calculateDimensions_never_enlarges 100 50 (Some 4000%Z) (Some 4000%Z)
           (Some true)); reflexivity.
Defined.

(** X2.  An image that already fits is returned as it is: when the original
    width is within [maxWidth] (or there is none) and the original height
    within [maxHeight] (or there is none), the result is the original size,
    in both aspect modes. *)
Theorem calculateDimensions_fits_unchanged (ow oh : Z) (maxW maxH : option Z)
    (lock : option bool) :
  (forall mw, maxW = Some mw -> (ow <= mw)%Z) ->
  (forall mh, maxH = Some mh -> (oh <= mh)%Z) ->
  calculateDimensions ow oh maxW maxH lock = mkDim ow oh.
Proof.
  intros HW HH. unfold calculateDimensions.
  destruct (negb (Js.truthy maxW) && negb (Js.truthy maxH)); [reflexivity|].
  assert (GW : forall mw, maxW = Some mw -> Js.gt (inject_Z ow) (inject_Z mw) = false).
  { intros mw E. apply gt_false. rewrite <- Zle_Qle. apply HW, E. }
  assert (GH : forall mh, maxH = Some mh -> Js.gt (inject_Z oh) (inject_Z mh) = false).
  { intros mh E. apply gt_false. rewrite <- Zle_Qle. apply HH, E. }
  assert (E : applyBounds ow oh maxW maxH (match lock with Some b => b | None => true end)
              = (inject_Z ow, inject_Z oh)).
  { unfold applyBounds, Js.Math_min.
    destruct (match lock with Some b => b | None => true end);
      destruct maxW as [mw|], maxH as [mh|];
      try destruct (Js.truthyZ mw); try destruct (Js.truthyZ mh);
      cbn [andb fst snd];
      repeat (first [rewrite (GW mw eq_refl) | rewrite (GH mh eq_refl)];
              cbn [andb fst snd]);
      reflexivity. }
  rewrite E, !Math_round_inject_Z. reflexivity.
Qed.

(** An 800 x 600 image within 1000 x 1000. *)
Lemma calculateDimensions_fits_unchanged_witness :
  calculateDimensions 800 600 (Some 1000%Z) (Some 1000%Z) (Some false) = mkDim 800 600.
Proof.
  apply (calculateDimensions_fits_unchanged 800 600 (Some 1000%Z) (Some 1000%Z)
           (Some false)).
  - intros mw E. injection E as <-. discriminate.
  - intros mh E. injection E as <-. discriminate.
Defined.

(** Under the aspect lock the running values keep the original ratio. *)
Lemma applyBounds_locked_aspect (ow oh : Z) (maxW maxH : option Z) :
  (0 < ow)%Z -> (0 < oh)%Z ->
  fst (applyBounds ow oh maxW maxH true) * inject_Z oh
  == snd (applyBounds ow oh maxW maxH true) * inject_Z ow.
Proof.
  intros Hw Hh.
  pose proof (aspect_height ow oh Hh) as HW.
  pose proof (aspect_undo ow oh Hw Hh) as HU.
  unfold applyBounds.
  set (W := inject_Z ow) in *. set (H := inject_Z oh) in *.
  set (a := W / H) in *. clearbody a. clearbody W H.
  assert (K : forall (w h : Q), w * H == h * W ->
             fst (match maxH with
                  | Some mh =>
                      if Js.truthyZ mh && Js.gt h (inject_Z mh)
                      then (inject_Z mh * a, inject_Z mh) else (w, h)
                  | None => (w, h)
                  end) * H
             == snd (match maxH with
                     | Some mh =>
                         if Js.truthyZ mh && Js.gt h (inject_Z mh)
                         then (inject_Z mh * a, inject_Z mh) else (w, h)
                     | None => (w, h)
                     end) * W).
  { intros w h Eq. destruct maxH as [mh|]; [|exact Eq].
    destruct (Js.truthyZ mh && Js.gt h (inject_Z mh)); [|exact Eq].
    simpl. rewrite <- HW. ring. }
  destruct maxW as [mw|].
  - destruct (Js.truthyZ mw && Js.gt W (inject_Z mw)).
    + apply K. rewrite <- (HU (inject_Z mw)) at 1. rewrite <- HW. ring.
    + apply K. ring.
  - apply K. ring.
Qed.

(** X3.  Under the aspect lock (given or defaulted) the returned size has
    the original proportions up to rounding: for positive original
    dimensions, [width * originalHeight] and [height * originalWidth] differ
    by at most half of [originalWidth + originalHeight]. *)
Theorem calculateDimensions_keeps_aspect (ow oh : Z) (maxW maxH : option Z)
    (lock : option bool) :
  lock <> Some false ->
  (0 < ow)%Z -> (0 < oh)%Z ->
  (2 * Z.abs (width (calculateDimensions ow oh maxW maxH lock) * oh
              - height (calculateDimensions ow oh maxW maxH lock) * ow)
   <= ow + oh)%Z.
Proof.
  intros Hlock Hw Hh.
  assert (L : match lock with Some b => b | None => true end = true)
    by (destruct lock as [[|]|]; congruence).
  unfold calculateDimensions. rewrite L.
  destruct (negb (Js.truthy maxW) && negb (Js.truthy maxH)).
  - cbn [width height]. replace (ow * oh - oh * ow)%Z with 0%Z by ring. cbn. lia.
  - pose proof (applyBounds_locked_aspect ow oh maxW maxH Hw Hh) as A.
    destruct (applyBounds ow oh maxW maxH true) as [w h]. cbn [fst snd] in A.
    cbn [width height].
    destruct (Math_round_nearest w) as [W1 W2].
    destruct (Math_round_nearest h) as [H1 H2].
    pose proof (W_pos ow Hw) as PW. pose proof (H_pos oh Hh) as PH.
    set (w' := Js.Math_round w) in *. set (h' := Js.Math_round h) in *.
    assert (Q1 : 2 * (inject_Z w' * inject_Z oh - inject_Z h' * inject_Z ow)
                 <= inject_Z ow + inject_Z oh).
    { set (a := inject_Z w') in *. set (b := inject_Z h') in *.
      set (W := inject_Z ow) in *. set (H := inject_Z oh) in *.
      clearbody a b W H. nra. }
    assert (Q2 : - (inject_Z ow + inject_Z oh)
                 <= 2 * (inject_Z w' * inject_Z oh - inject_Z h' * inject_Z ow)).
    { set (a := inject_Z w') in *. set (b := inject_Z h') in *.
      set (W := inject_Z ow) in *. set (H := inject_Z oh) in *.
      clearbody a b W H. nra. }
    assert (Z1 : (2 * (w' * oh - h' * ow) <= ow + oh)%Z).
    { rewrite Zle_Qle. rewrite inject_Z_plus, inject_Z_mult.
      unfold Z.sub. rewrite inject_Z_plus, inject_Z_opp, !inject_Z_mult.
      change (inject_Z 2) with 2. lra. }
    assert (Z2 : (- (ow + oh) <= 2 * (w' * oh - h' * ow))%Z).
    { rewrite Zle_Qle. rewrite inject_Z_opp, inject_Z_plus, inject_Z_mult.
      unfold Z.sub. rewrite inject_Z_plus, inject_Z_opp, !inject_Z_mult.
      change (inject_Z 2) with 2. lra. }
    lia.
Qed.

(** 1600 x 1200 within 800 x 300 becomes 400 x 300, the same 4 : 3. *)
Lemma calculateDimensions_keeps_aspect_witness :
  (2 * Z.abs (width (calculateDimensions 1600 1200 (Some 800%Z) (Some 300%Z) None) * 1200
              - height (calculateDimensions 1600 1200 (Some 800%Z) (Some 300%Z) None)
                * 1600)
   <= 1600 + 1200)%Z.
Proof.
  apply (calculateDimensions_keeps_aspect 1600 1200 (Some 800%Z) (Some 300%Z) None);
    [discriminate | reflexivity | reflexivity].
Defined.

Lemma Math_round_min (a b : Z) :
  Js.Math_round (Js.Math_min (inject_Z a) (inject_Z b)) = Z.min a b.
Proof.
  unfold Js.Math_min. destruct (Js.gt (inject_Z a) (inject_Z b)) eqn:E.
  - apply gt_true in E. rewrite <- Zlt_Qlt in E.
    rewrite Math_round_inject_Z. lia.
  - apply gt_false in E. rewrite <- Zle_Qle in E.
    rewrite Math_round_inject_Z. lia.
Qed.

(** X4.  With the aspect lock off the two dimensions are clamped
    independently and exactly: the width is the smaller of the original
    width and [maxWidth], the height the smaller of the original height and
    [maxHeight], a bound of 0 or a missing bound leaving its dimension as it
    is. *)
Theorem calculateDimensions_free_min (ow oh : Z) (maxW maxH : option Z) :
  calculateDimensions ow oh maxW maxH (Some false)
  = mkDim (match Js.inForce maxW with Some mw => Z.min ow mw | None => ow end)
          (match Js.inForce maxH with Some mh => Z.min oh mh | None => oh end).
Proof.
  unfold calculateDimensions, applyBounds, Js.inForce, Js.truthy.
  destruct maxW as [mw|], maxH as [mh|];
    try destruct (Js.truthyZ mw); try destruct (Js.truthyZ mh);
    cbn [negb andb]; rewrite ?Math_round_min, ?Math_round_inject_Z; reflexivity.
Qed.

(** ** The orchestrator: how a request ends *)

Lemma listed_not_same_format (fromType toType : string) :
  Spec.pairListed supportedConversions fromType toType = true ->
  String.eqb (normalize fromType) (normalize toType) = false.
Proof.
  intros L. destruct (String.eqb_spec (normalize fromType) (normalize toType)) as [E|];
    [|reflexivity].
  rewrite (same_format_not_listed _ _ E) in L. discriminate.
Qed.

Lemma listed_found (fromType toType : string) :
  Spec.pairListed supportedConversions fromType toType = true ->
  exists c,
    find (matches (normalize fromType) (normalize toType)) supportedConversions = Some c.
Proof.
  intros L.
  destruct (find (matches (normalize fromType) (normalize toType)) supportedConversions)
    as [c|] eqn:F; [exists c; reflexivity|].
  apply lookup_listed in F. congruence.
Qed.

(** For a listed pair with a bitmap target, [convertImage] is
    [convertImageFormat] with its outcome wrapped in a result record. *)
Lemma convertImage_bitmap (B : Browser) (imageItem : ImageItem.t)
    (fromType toType : string) (settings : Settings.t) :
  Spec.pairListed supportedConversions fromType toType = true ->
  String.eqb toType "pdf" = false ->
  convertImage B imageItem fromType toType settings
  = match convertImageFormat B (ImageItem.file imageItem) fromType toType settings with
    | (Resolved (blob, _), log) =>
        (Resolved (successRecord B imageItem fromType toType settings blob
                     (Js.replaceExtension (ImageItem.name imageItem) ("." ++ toType))),
         log)
    | (Rejected message, log) =>
        (Resolved (failureRecord imageItem fromType toType message), log)
    | (Pending, log) => (Pending, log)
    end.
Proof.
  intros L Hpdf. destruct (listed_found _ _ L) as [c F].
  unfold convertImage. rewrite F, Hpdf, (listed_not_same_format _ _ L).
  cbn [negb orb].
  destruct (convertImageFormat B _ fromType toType settings)
    as [[[blob stats] | message |] log]; cbn; rewrite ?app_nil_r; reflexivity.
Qed.

(** For a listed pair with the document target, [convertImage] is
    [convertImageToPDF] with its outcome wrapped in a result record. *)
Lemma convertImage_pdf (B : Browser) (imageItem : ImageItem.t)
    (fromType : string) (settings : Settings.t) :
  Spec.pairListed supportedConversions fromType "pdf" = true ->
  convertImage B imageItem fromType "pdf" settings
  = match convertImageToPDF B (ImageItem.file imageItem) settings with
    | (Resolved (blob, _), log) =>
        (Resolved (successRecord B imageItem fromType "pdf" settings blob
                     (Js.replaceExtension (ImageItem.name imageItem) ".pdf")),
         log)
    | (Rejected message, log) =>
        (Resolved (failureRecord imageItem fromType "pdf" message), log)
    | (Pending, log) => (Pending, log)
    end.
Proof.
  intros L. destruct (listed_found _ _ L) as [c F].
  unfold convertImage. rewrite F. cbn [String.eqb Ascii.eqb Bool.eqb].
  destruct (convertImageToPDF B _ settings)
    as [[[blob stats] | message |] log]; cbn; rewrite ?app_nil_r; reflexivity.
Qed.


(** [compressImage] settles, and the blob it resolves to decodes. *)
Lemma compressImage_outcome (B : Browser) (file : Blob.t) (settings : Settings.t) :
  match fst (compressImage B file settings) with
  | Resolved (blob, _) => exists d, Blob.pixels blob = Some d
  | Rejected message =>
      In message ["Failed to load image"; "Could not get canvas context";
                  "Failed to compress image"]
  | Pending => False
  end.
Proof.
  unfold compressImage, loadImage.
  destruct (Blob.pixels file) as [[iw ih]|]; cbn; [|tauto].
  destruct (getContext B); cbn; [|tauto].
  destruct (calculateDimensions _ _ _ _ _) as [w h].
  destruct (Js.includes "png" (Blob.type file)); cbn;
    destruct (toBlob B _ _ _ _); cbn; try tauto; eexists; reflexivity.
Qed.

(** [convertImageFormat] settles; a rejection carries one of three
    messages. *)
Lemma convertImageFormat_outcome (B : Browser) (file : Blob.t)
    (fromType toType : string) (settings : Settings.t) :
  match fst (convertImageFormat B file fromType toType settings) with
  | Resolved _ => True
  | Rejected message =>
      In message ["Failed to load image"; "Could not get canvas context";
                  "Failed to create blob"]
  | Pending => False
  end.
Proof.
  unfold convertImageFormat, loadImage.
  destruct (Blob.pixels file) as [[iw ih]|]; cbn; [|tauto].
  destruct (getContext B); cbn; [|tauto].
  destruct (calculateDimensions _ _ _ _ _) as [w h].
  destruct (String.eqb toType "jpg" || String.eqb toType "jpeg"); cbn;
    destruct (toBlob B _ _ _ _); cbn; tauto.
Qed.

(** [convertImageToPDF] settles; a rejection carries one of three messages
    or the message of the exception raised by the page writer. *)
Lemma convertImageToPDF_outcome (B : Browser) (file : Blob.t) (settings : Settings.t) :
  match fst (convertImageToPDF B file settings) with
  | Resolved _ => True
  | Rejected message =>
      In message ["Failed to load image"; "Could not get canvas context";
                  "Failed to compress image"]
      \/ exists imgData x y w h, pdfOutput B imgData x y w h = inl message
  | Pending => False
  end.
Proof.
  pose proof (compressImage_outcome B file settings) as Hc.
  unfold convertImageToPDF, loadImage.
  destruct (Blob.pixels file) as [[iw ih]|]; [|cbn; tauto].
  cbn [resolve await]. destruct (getContext B); [|cbn; tauto].
  cbn [negb].
  destruct (Js.truthyB (Settings.enableCompression settings)).
  - destruct (compressImage B file settings) as [[[cblob cstats] | message |] clog];
      cbn in Hc |- *; [| left; exact Hc | exact Hc].
    destruct Hc as [[pw ph] Hc]. rewrite Hc. cbn.
    destruct (pagePlacement _ _ pw ph) as [[[x y] fw] fh]. cbn.
    destruct (pdfOutput B _ _ _ _ _) eqn:P; cbn; [|exact I].
    right. do 5 eexists. exact P.
  - cbn. destruct (pagePlacement _ _ iw ih) as [[[x y] fw] fh]. cbn.
    destruct (pdfOutput B _ _ _ _ _) eqn:P; cbn; [|exact I].
    right. do 5 eexists. exact P.
Qed.

Lemma listed_settles (B : Browser) (imageItem : ImageItem.t)
    (fromType toType : string) (settings : Settings.t) :
  Spec.pairListed supportedConversions fromType toType = true ->
  exists r, fst (convertImage B imageItem fromType toType settings) = Resolved r.
Proof.
  intros L. destruct (String.eqb_spec toType "pdf") as [-> | Hn].
  - rewrite (convertImage_pdf B imageItem fromType settings L).
    pose proof (convertImageToPDF_outcome B (ImageItem.file imageItem) settings) as O.
    destruct (convertImageToPDF B _ settings) as [[[blob stats] | message |] log];
      cbn in O |- *; [eexists; reflexivity | eexists; reflexivity | contradiction].
  - assert (Hpdf : String.eqb toType "pdf" = false)
      by (apply String.eqb_neq; exact Hn).
    rewrite (convertImage_bitmap B imageItem fromType toType settings L Hpdf).
    pose proof (convertImageFormat_outcome B (ImageItem.file imageItem) fromType toType
                  settings) as O.
    destruct (convertImageFormat B _ fromType toType settings)
      as [[[blob stats] | message |] log];
      cbn in O |- *; [eexists; reflexivity | eexists; reflexivity | contradiction].
Qed.

(** X5.  For a listed pair [convertImage] never throws: whatever fails
    after the lookup (decoding, the canvas context, an encoder, the page
    writer) is caught inside the [try] block and returned as a result
    record, so the promise is never rejected.  (Whether the promise settles
    at all is not part of this statement.) *)
Theorem convertImage_listed_never_throws (B : Browser) (imageItem : ImageItem.t)
    (fromType toType : string) (settings : Settings.t) :
  Spec.pairListed supportedConversions fromType toType = true ->
  forall message,
    fst (convertImage B imageItem fromType toType settings) <> Rejected message.
Proof.
  intros L message.
  destruct (listed_settles B imageItem fromType toType settings L) as [r ->].
  discriminate.
Qed.

(** A file that does not decode does not make the promise reject. *)
Lemma convertImage_listed_never_throws_witness :
  fst (convertImage Demo.browser
         (ImageItem.mk "id-2" (Blob.mk 10 "image/png" None) "broken.png")
         "png" "jpg" Demo.settings) <> Rejected "Failed to load image".
Proof.
  apply (convertImage_listed_never_throws Demo.browser
           (ImageItem.mk "id-2" (Blob.mk 10 "image/png" None) "broken.png")
           "png" "jpg" Demo.settings).
  reflexivity.
Defined.

(** X6.  Every result that [convertImage] resolves to carries the id and
    the name of the image item and the two formats of the request; a success
    has no error, has statistics and the object URL of its blob; a failure
    has an error message, an empty blob, an empty converted name, an empty
    URL and no statistics. *)
Theorem convertImage_result_shape (B : Browser) (imageItem : ImageItem.t)
    (fromType toType : string) (settings : Settings.t)
    (r : ConversionResult.t) (log : list Event) :
  convertImage B imageItem fromType toType settings = (Resolved r, log) ->
  ConversionResult.id r = ImageItem.id imageItem
  /\ ConversionResult.originalName r = ImageItem.name imageItem
  /\ ConversionResult.fromType r = fromType
  /\ ConversionResult.toType r = toType
  /\ (ConversionResult.success r = true ->
      ConversionResult.error r = None
      /\ ConversionResult.compressionStats r <> None
      /\ ConversionResult.url r = createObjectURL B (ConversionResult.blob r))
  /\ (ConversionResult.success r = false ->
      ConversionResult.error r <> None
      /\ ConversionResult.blob r = Blob.empty
      /\ ConversionResult.convertedName r = ""
      /\ ConversionResult.url r = ""
      /\ ConversionResult.compressionStats r = None).
Proof.
  unfold convertImage.
  destruct (find _ supportedConversions) as [c|]; [|discriminate].
  match goal with
  | |- context [await ?p _] => destruct p as [[[[blob stats] fileName] | message |] l]
  end; cbn; intros E; try discriminate; injection E as <- _; cbn;
    repeat split; try discriminate; congruence.
Qed.

(** The result of a failed decode has the failure shape. *)
Lemma convertImage_result_shape_witness :
  exists r log,
    convertImage Demo.browser
      (ImageItem.mk "id-2" (Blob.mk 10 "image/png" None) "broken.png")
      "png" "jpg" Demo.settings = (Resolved r, log)
    /\ ConversionResult.success r = false
    /\ ConversionResult.id r = "id-2"
    /\ ConversionResult.blob r = Blob.empty.
Proof.
  eexists. eexists. split; [reflexivity|]. split; [reflexivity|].
  destruct (convertImage_result_shape Demo.browser
              (ImageItem.mk "id-2" (Blob.mk 10 "image/png" None) "broken.png")
              "png" "jpg" Demo.settings _ _ eq_refl)
    as [Hid [_ [_ [_ [_ Hfail]]]]].
  split; [exact Hid|]. apply Hfail. reflexivity.
Defined.

Lemma resolved_listed (B : Browser) (imageItem : ImageItem.t)
    (fromType toType : string) (settings : Settings.t)
    (r : ConversionResult.t) (log : list Event) :
  convertImage B imageItem fromType toType settings = (Resolved r, log) ->
  Spec.pairListed supportedConversions fromType toType = true.
Proof.
  intros E.
  destruct (Spec.pairListed supportedConversions fromType toType) eqn:L; [reflexivity|].
  rewrite (convertImage_not_listed B imageItem fromType toType settings L) in E.
  discriminate.
Qed.

(** X7.  The error of a failed result is always one of: [Failed to load
    image], [Could not get canvas context], [Failed to create blob], [Failed
    to compress image], or the message of an exception raised by the page
    writer.  In particular the engine itself never reports [No conversion or
    compression requested]. *)
Theorem convertImage_error_messages (B : Browser) (imageItem : ImageItem.t)
    (fromType toType : string) (settings : Settings.t)
    (r : ConversionResult.t) (log : list Event) (message : string) :
  convertImage B imageItem fromType toType settings = (Resolved r, log) ->
  ConversionResult.error r = Some message ->
  In message ["Failed to load image"; "Could not get canvas context";
              "Failed to create blob"; "Failed to compress image"]
  \/ exists imgData x y w h, pdfOutput B imgData x y w h = inl message.
Proof.
  intros E Herr. pose proof (resolved_listed _ _ _ _ _ _ _ E) as L.
  destruct (String.eqb_spec toType "pdf") as [-> | Hn].
  - rewrite (convertImage_pdf B imageItem fromType settings L) in E.
    pose proof (convertImageToPDF_outcome B (ImageItem.file imageItem) settings) as O.
    destruct (convertImageToPDF B _ settings) as [[[blob stats] | m |] l];
      cbn in O; try discriminate; injection E as <- _; cbn in Herr; try discriminate.
    injection Herr as <-. destruct O as [O | O]; [left | right; exact O].
    cbn in O |- *. tauto.
  - assert (Hpdf : String.eqb toType "pdf" = false)
      by (apply String.eqb_neq; exact Hn).
    rewrite (convertImage_bitmap B imageItem fromType toType settings L Hpdf) in E.
    pose proof (convertImageFormat_outcome B (ImageItem.file imageItem) fromType toType
                  settings) as O.
    destruct (convertImageFormat B _ fromType toType settings) as [[[blob stats] | m |] l];
      cbn in O; try discriminate; injection E as <- _; cbn in Herr; try discriminate.
    injection Herr as <-. left. cbn in O |- *. tauto.
Qed.

(** The error of a failed decode is the first of the list. *)
Lemma convertImage_error_messages_witness :
  In "Failed to load image"
    ["Failed to load image"; "Could not get canvas context";
     "Failed to create blob"; "Failed to compress image"]
  \/ exists imgData x y w h,
       pdfOutput Demo.browser imgData x y w h = inl "Failed to load image".
Proof.
  apply (convertImage_error_messages Demo.browser
           (ImageItem.mk "id-2" (Blob.mk 10 "image/png" None) "broken.png")
           "png" "jpg" Demo.settings _ _ "Failed to load image" eq_refl).
  reflexivity.
Defined.

(** X8.  A file that does not decode fails on its own: for every listed
    pair the result is the failure record with [Failed to load image], and
    nothing was drawn, encoded or written. *)
Theorem convertImage_decode_failure (B : Browser) (imageItem : ImageItem.t)
    (fromType toType : string) (settings : Settings.t) :
  Spec.pairListed supportedConversions fromType toType = true ->
  Blob.pixels (ImageItem.file imageItem) = None ->
  convertImage B imageItem fromType toType settings
  = (Resolved (failureRecord imageItem fromType toType "Failed to load image"), []).
Proof.
  intros L Hpix. destruct (String.eqb_spec toType "pdf") as [-> | Hn].
  - rewrite (convertImage_pdf B imageItem fromType settings L).
    unfold convertImageToPDF, loadImage. rewrite Hpix. reflexivity.
  - assert (Hpdf : String.eqb toType "pdf" = false)
      by (apply String.eqb_neq; exact Hn).
    rewrite (convertImage_bitmap B imageItem fromType toType settings L Hpdf).
    unfold convertImageFormat, loadImage. rewrite Hpix. reflexivity.
Qed.

Lemma convertImage_decode_failure_witness :
  convertImage Demo.browser
    (ImageItem.mk "id-2" (Blob.mk 10 "image/png" None) "broken.png")
    "png" "pdf" Demo.settings
  = (Resolved (failureRecord
                 (ImageItem.mk "id-2" (Blob.mk 10 "image/png" None) "broken.png")
                 "png" "pdf" "Failed to load image"), []).
Proof.
  apply (convertImage_decode_failure Demo.browser
           (ImageItem.mk "id-2" (Blob.mk 10 "image/png" None) "broken.png")
           "png" "pdf" Demo.settings); reflexivity.
Defined.

(** X9.  Without a 2D context nothing is attempted: for every listed pair
    and every image that decodes, the result is the failure record with
    [Could not get canvas context] and no canvas, encoder or page-writer
    call was made. *)
Theorem convertImage_no_context (B : Browser) (imageItem : ImageItem.t)
    (fromType toType : string) (settings : Settings.t) (d : Z * Z) :
  Spec.pairListed supportedConversions fromType toType = true ->
  Blob.pixels (ImageItem.file imageItem) = Some d ->
  getContext B = false ->
  convertImage B imageItem fromType toType settings
  = (Resolved (failureRecord imageItem fromType toType "Could not get canvas context"),
     []).
Proof.
  intros L Hpix Hctx. destruct d as [iw ih].
  destruct (String.eqb_spec toType "pdf") as [-> | Hn].
  - rewrite (convertImage_pdf B imageItem fromType settings L).
    unfold convertImageToPDF, loadImage. rewrite Hpix. cbn [resolve await].
    rewrite Hctx. reflexivity.
  - assert (Hpdf : String.eqb toType "pdf" = false)
      by (apply String.eqb_neq; exact Hn).
    rewrite (convertImage_bitmap B imageItem fromType toType settings L Hpdf).
    unfold convertImageFormat, loadImage. rewrite Hpix. cbn [resolve await].
    rewrite Hctx. reflexivity.
Qed.

Lemma convertImage_no_context_witness :
  convertImage Fixture.noContext Demo.item "png" "jpg" Demo.settings
  = (Resolved (failureRecord Demo.item "png" "jpg" "Could not get canvas context"), []).
Proof.
  apply (convertImage_no_context Fixture.noContext Demo.item "png" "jpg" Demo.settings
           (2000, 1000)%Z); reflexivity.
Defined.

(** ** Bitmap targets: background, quality and size *)

Lemma normalize_inv (type : string) :
  (normalize type = "jpg" -> type = "jpg" \/ type = "jpeg")
  /\ (forall other, other <> "jpg" -> normalize type = other -> type = other).
Proof.
  unfold normalize. destruct (String.eqb_spec type "jpeg") as [-> | Hn]; split.
  - intros _. right. reflexivity.
  - intros other Ho E. congruence.
  - intros E. left. exact E.
  - intros other _ E. exact E.
Qed.

(** The sources and the targets of the listed pairs. *)
Lemma listed_formats (fromType toType : string) :
  Spec.pairListed supportedConversions fromType toType = true ->
  In fromType ["jpg"; "jpeg"; "png"] /\ In toType ["png"; "jpg"; "jpeg"; "pdf"].
Proof.
  unfold Spec.pairListed. intros L. apply existsb_exists in L.
  destruct L as [c [Hin Hc]]. apply andb_true_iff in Hc. destruct Hc as [Hf Ht].
  apply String.eqb_eq in Hf, Ht.
  destruct (normalize_inv fromType) as [Fj Fo].
  destruct (normalize_inv toType) as [Tj To].
  cbn in Hin.
  assert (HF : normalize fromType = "jpg" \/ normalize fromType = "png").
  { repeat (destruct Hin as [<- | Hin]; [cbn in Hf; auto|]). contradiction. }
  assert (HT : normalize toType = "jpg" \/ normalize toType = "png"
               \/ normalize toType = "pdf").
  { repeat (destruct Hin as [<- | Hin]; [cbn in Ht; auto|]). contradiction. }
  split.
  - destruct HF as [E | E].
    + apply Fj in E. destruct E as [-> | ->]; cbn; tauto.
    + apply (Fo "png") in E; [rewrite E; cbn; tauto | discriminate].
  - destruct HT as [E | [E | E]].
    + apply Tj in E. destruct E as [-> | ->]; cbn; tauto.
    + apply (To "png") in E; [rewrite E; cbn; tauto | discriminate].
    + apply (To "pdf") in E; [rewrite E; cbn; tauto | discriminate].
Qed.








(** ** The document target *)

(** What [convertImageToPDF] does without compression, once the image has
    decoded and a context is there. *)
Lemma convertImageToPDF_plain_run (B : Browser) (file : Blob.t) (settings : Settings.t)
    (iw ih : Z) (x y fw fh : Q) :
  Blob.pixels file = Some (iw, ih) ->
  getContext B = true ->
  Js.truthyB (Settings.enableCompression settings) = false ->
  pagePlacement (pdfWidth B) (pdfHeight B) iw ih = (x, y, fw, fh) ->
  let canvas := (inject_Z iw, inject_Z ih) in
  let q := Js.orElse (Settings.quality settings) (19 # 20) in
  convertImageToPDF B file settings
  = (match pdfOutput B (toDataURL B file canvas "image/jpeg" q) x y fw fh with
     | inr n =>
         Resolved (Blob.mk n "application/pdf" None,
                   Stats.mk (Blob.size file) n None (Some q) None None)
     | inl message => Rejected message
     end,
     [DrawImage file None; ToDataURL canvas "image/jpeg" q; AddImage "JPEG" x y fw fh]).
Proof.
  intros Hpix Hctx Hen Hp canvas q. subst canvas q.
  unfold convertImageToPDF, loadImage. rewrite Hpix. cbn [resolve await].
  rewrite Hctx, Hen. cbn. rewrite Hp. cbn.
  destruct (pdfOutput B _ _ _ _ _); reflexivity.
Qed.

(** X13.  A document conversion without compression draws the image at its
    native size, encodes it once, as JPEG, at [settings.quality] (0.95 when
    that is missing or 0) although compression is off, and places it once.
    The result is a success with an [application/pdf] blob of the writer's
    byte length, named after the image with the extension replaced by
    [.pdf]; an exception of the page writer becomes a failure with the
    exception's message. *)
Theorem convertImage_pdf_plain (B : Browser) (imageItem : ImageItem.t)
    (fromType : string) (settings : Settings.t) (iw ih : Z) (x y fw fh : Q) :
  Spec.pairListed supportedConversions fromType "pdf" = true ->
  Blob.pixels (ImageItem.file imageItem) = Some (iw, ih) ->
  getContext B = true ->
  Js.truthyB (Settings.enableCompression settings) = false ->
  pagePlacement (pdfWidth B) (pdfHeight B) iw ih = (x, y, fw, fh) ->
  let canvas := (inject_Z iw, inject_Z ih) in
  let q := Js.orElse (Settings.quality settings) (19 # 20) in
  convertImage B imageItem fromType "pdf" settings
  = (Resolved
       match pdfOutput B (toDataURL B (ImageItem.file imageItem) canvas "image/jpeg" q)
               x y fw fh with
       | inr n =>
           successRecord B imageItem fromType "pdf" settings
             (Blob.mk n "application/pdf" None)
             (Js.replaceExtension (ImageItem.name imageItem) ".pdf")
       | inl message => failureRecord imageItem fromType "pdf" message
       end,
     [DrawImage (ImageItem.file imageItem) None; ToDataURL canvas "image/jpeg" q;
      AddImage "JPEG" x y fw fh]).
Proof.
  intros L Hpix Hctx Hen Hp canvas q.
  rewrite (convertImage_pdf B imageItem fromType settings L).
  rewrite (convertImageToPDF_plain_run B _ settings iw ih x y fw fh Hpix Hctx Hen Hp).
  fold canvas q. destruct (pdfOutput B _ _ _ _ _); reflexivity.
Qed.

(** With the settings of a fresh page the PDF raster is encoded at 0.8. *)
Lemma convertImage_pdf_plain_witness :
  convertImage Demo.browser Demo.item "png" "pdf" Demo.settings
  = (Resolved
       (successRecord Demo.browser Demo.item "png" "pdf" Demo.settings
          (Blob.mk 15000 "application/pdf" None) "photo.pdf"),
     [DrawImage Demo.png None; ToDataURL (2000, 1000) "image/jpeg" (4 # 5);
      AddImage "JPEG" (20 # 2) (404000 # 4000) 190 (190000 # 2000)]).
Proof.
  apply (convertImage_pdf_plain Demo.browser Demo.item "png" Demo.settings 2000 1000
           (20 # 2) (404000 # 4000) 190 (190000 # 2000)); reflexivity.
Defined.

(** What [compressImage] does once the image has decoded and a context is
    there. *)
Lemma compressImage_run (B : Browser) (file : Blob.t) (settings : Settings.t)
    (iw ih : Z) :
  Blob.pixels file = Some (iw, ih) ->
  getContext B = true ->
  let d := calculateDimensions iw ih (Settings.maxWidth settings)
             (Settings.maxHeight settings) (Settings.maintainAspectRatio settings) in
  let canvas := (inject_Z (width d), inject_Z (height d)) in
  let mime := if Js.includes "png" (Blob.type file) then "image/png" else "image/jpeg" in
  compressImage B file settings
  = (match toBlob B file canvas mime (Settings.quality settings) with
     | Some n =>
         Resolved
           (Blob.mk n mime (Some (width d, height d)),
            Stats.mk (Blob.size file) n
              (Some (Spec.compressionRatio (Blob.size file) n))
              (Settings.quality settings)
              (Some (mkDim iw ih)) (Some d))
     | None => Rejected "Failed to compress image"
     end,
     ((if Js.includes "png" (Blob.type file) then []
       else [FillStyle "#FFFFFF";
             FillRect 0 0 (inject_Z (width d)) (inject_Z (height d))])
      ++ [DrawImage file (Some canvas); ToBlob canvas mime (Settings.quality settings)])%list).
Proof.
  intros Hpix Hctx d canvas mime. subst d canvas mime.
  unfold compressImage, loadImage. rewrite Hpix. cbn [resolve await].
  rewrite Hctx. cbn [negb].
  destruct (calculateDimensions _ _ _ _ _) as [w h]. cbn [width height].
  destruct (Js.includes "png" (Blob.type file)); cbn;
    destruct (toBlob B _ _ _ _); reflexivity.
Qed.



(** ** The compression preview *)

(** X15.  The preview never resizes and never changes the format: it
    encodes the image once, at its original size, as PNG when the file's MIME
    type contains [png] and as JPEG otherwise, at the quality asked for.  It
    resolves to the encoder's byte length with the ratio
    [(file.size - size) / file.size * 100], and is rejected with [Failed to
    compress image] when the encoder gives nothing. *)
Theorem generateCompressionPreview_run (B : Browser) (file : Blob.t) (quality : Q)
    (iw ih : Z) :
  Blob.pixels file = Some (iw, ih) ->
  getContext B = true ->
  let canvas := (inject_Z iw, inject_Z ih) in
  let mime := if Js.includes "png" (Blob.type file) then "image/png" else "image/jpeg" in
  fst (generateCompressionPreview B file quality)
  = match toBlob B file canvas mime (Some quality) with
    | Some n =>
        Resolved (n, Some (Spec.compressionRatio (Blob.size file) n),
                  Blob.mk n mime (Some (iw, ih)))
    | None => Rejected "Failed to compress image"
    end
  /\ toBlobCalls (snd (generateCompressionPreview B file quality))
     = [(canvas, mime, Some quality)].
Proof.
  intros Hpix Hctx canvas mime. subst canvas mime.
  unfold generateCompressionPreview.
  rewrite (compressImage_run B file _ iw ih Hpix Hctx).
  cbn [Settings.maxWidth Settings.maxHeight Settings.maintainAspectRatio
       Settings.quality calculateDimensions Js.truthy negb andb width height].
  destruct (Js.includes "png" (Blob.type file));
    destruct (toBlob B _ _ _ _); split; reflexivity.
Qed.

(** A 10000-byte PNG previewed at 0.5 by an encoder that halves sizes:
    5000 bytes, 50 percent. *)
Lemma generateCompressionPreview_run_witness :
  fst (generateCompressionPreview Fixture.halving Demo.png (1 # 2))
  = Resolved (5000%Z, Some (Spec.compressionRatio 10000 5000),
              Blob.mk 5000 "image/png" (Some (2000, 1000)%Z))
  /\ toBlobCalls (snd (generateCompressionPreview Fixture.halving Demo.png (1 # 2)))
     = [(2000, 1000, "image/png", Some (1 # 2))].
Proof.
  apply (generateCompressionPreview_run Fixture.halving Demo.png (1 # 2) 2000 1000);
    reflexivity.
Defined.

(** ** Thumbnails *)

(** X16.  A thumbnail image is drawn to fill its box: for an image of
    positive dimensions and a box size that is not negative, the width and
    height handed to [drawImage] (in exact arithmetic) are at most [maxSize]
    each, one of them is [maxSize] itself (a smaller image is enlarged), and
    they are in the proportions of the image.  These are also the values
    assigned to [canvas.width] and [canvas.height]; the canvas keeps only
    their integer parts, about which nothing is said here. *)
Theorem generateThumbnail_fills_box (B : Browser) (file : Blob.t) (maxSize : option Q)
    (iw ih : Z) :
  Blob.pixels file = Some (iw, ih) ->
  getContext B = true ->
  (0 < iw)%Z -> (0 < ih)%Z ->
  let m := match maxSize with Some m => m | None => 120 end in
  0 <= m ->
  exists w h rest,
    snd (generateThumbnail B file maxSize) = DrawImage file (Some (w, h)) :: rest
    /\ w <= m /\ h <= m /\ (w == m \/ h == m)
    /\ w * inject_Z ih == h * inject_Z iw.
Proof.
  intros Hpix Hctx Hw Hh m Hm.
  pose proof (aspect_pos iw ih Hw Hh) as Ha.
  pose proof (aspect_height iw ih Hh) as HW.
  pose proof (aspect_undo iw ih Hw Hh m) as HU.
  unfold generateThumbnail, loadImage. rewrite Hpix. cbn [resolve await].
  rewrite Hctx. cbn [negb]. fold m.
  set (a := inject_Z iw / inject_Z ih) in *.
  destruct (Js.gt a 1) eqn:G.
  - apply gt_true in G. exists m, (m / a). eexists. split; [reflexivity|].
    set (q := m / a) in *. set (W := inject_Z iw) in *. set (H := inject_Z ih) in *.
    clearbody q a W H.
    split; [lra|]. split; [nra|]. split; [left; reflexivity|].
    rewrite <- HU at 1. rewrite <- HW. ring.
  - apply gt_false in G. exists (m * a), m. eexists. split; [reflexivity|].
    set (W := inject_Z iw) in *. set (H := inject_Z ih) in *. clearbody a W H.
    split; [nra|]. split; [lra|]. split; [right; reflexivity|].
    rewrite <- HW. ring.
Qed.

(** A 20 x 10 image in the default box of 120 is enlarged to 120 x 60. *)
Lemma generateThumbnail_fills_box_witness :
  exists w h rest,
    snd (generateThumbnail Demo.browser (Blob.mk 300 "image/png" (Some (20, 10)%Z)) None)
    = DrawImage (Blob.mk 300 "image/png" (Some (20, 10)%Z)) (Some (w, h)) :: rest
    /\ w <= 120 /\ h <= 120 /\ (w == 120 \/ h == 120)
    /\ w * inject_Z 10 == h * inject_Z 20.
Proof.
  apply (generateThumbnail_fills_box Demo.browser
           (Blob.mk 300 "image/png" (Some (20, 10)%Z)) None 20 10);
    try reflexivity. discriminate.
Defined.

(** ** The page: what always holds and what does not *)

(** On a page larger than 20 in each direction a raster of positive size
    lies inside the page, centred on both axes, with its own proportions,
    and touches the margin of 10 on one axis. *)
Lemma pagePlacement_inside (W H : Q) (rw rh : Z) (x y fw fh : Q) :
  pagePlacement W H rw rh = (x, y, fw, fh) ->
  (0 < rw)%Z -> (0 < rh)%Z -> 20 < W -> 20 < H ->
  0 < fw /\ 0 < fh /\ 0 < x /\ 0 < y
  /\ x + fw + x == W /\ y + fh + y == H
  /\ fw * inject_Z rh == fh * inject_Z rw
  /\ (x == 10 \/ y == 10).
Proof.
  unfold pagePlacement. intros E Hrw Hrh HW HH.
  pose proof (aspect_pos rw rh Hrw Hrh) as Ha.
  pose proof (aspect_height rw rh Hrh) as HA.
  pose proof (aspect_undo rw rh Hrw Hrh (W - 20)) as HU.
  set (a := inject_Z rw / inject_Z rh) in *.
  assert (NZ : ~ H == 0) by (intros Z0; rewrite Z0 in HH; lra).
  pose proof (Qmult_div_r W H NZ) as D.
  set (p := W / H) in *.
  set (q := (W - 20) / a) in *.
  destruct (Js.gt a p) eqn:G; injection E as <- <- <- <-.
  - apply gt_true in G.
    set (R := inject_Z rh) in *. set (S := inject_Z rw) in *. clearbody R S q a p.
    assert (Q0 : 0 < q) by nra.
    assert (Q1 : q < H).
    { assert (T : q * a < H * a); [|nra].
      assert (T1 : H * p < H * a) by nra. nra. }
    split; [lra|]. split; [exact Q0|].
    split; [apply Qlt_shift_div_l; lra|]. split; [apply Qlt_shift_div_l; lra|].
    split; [field|]. split; [field|].
    split; [rewrite <- HU at 1; rewrite <- HA; ring|].
    left. field.
  - apply gt_false in G.
    set (R := inject_Z rh) in *. set (S := inject_Z rw) in *. clearbody R S q a p.
    assert (F0 : 0 < (H - 20) * a) by nra.
    assert (F1 : (H - 20) * a < W).
    { assert (T : (H - 20) * a <= (H - 20) * p) by nra. nra. }
    split; [exact F0|]. split; [lra|].
    split; [apply Qlt_shift_div_l; lra|]. split; [apply Qlt_shift_div_l; lra|].
    split; [field|]. split; [field|].
    split; [rewrite <- HA; ring|].
    right. field.
Qed.

(** X17.  On a page larger than 20 units in each direction, every raster of
    positive size that [convertImageToPDF] embeds lies strictly inside the
    page, is centred horizontally and vertically, keeps its proportions
    exactly, and has a margin of exactly 10 on at least one axis. *)
Theorem convertImageToPDF_inside_page (B : Browser) (file : Blob.t)
    (settings : Settings.t) (x y fw fh : Q) :
  In (AddImage "JPEG" x y fw fh) (snd (convertImageToPDF B file settings)) ->
  20 < pdfWidth B -> 20 < pdfHeight B ->
  exists raster rw rh,
    In (DrawImage raster None) (snd (convertImageToPDF B file settings))
    /\ Blob.pixels raster = Some (rw, rh)
    /\ ((0 < rw)%Z -> (0 < rh)%Z ->
        0 < fw /\ 0 < fh /\ 0 < x /\ 0 < y
        /\ x + fw + x == pdfWidth B /\ y + fh + y == pdfHeight B
        /\ fw * inject_Z rh == fh * inject_Z rw
        /\ (x == 10 \/ y == 10)).
Proof.
  intros Hin HW HH.
  destruct (convertImageToPDF_embeds B file settings "JPEG" x y fw fh Hin)
    as [raster [rw [rh [Hdraw [Hpix Hplace]]]]].
  exists raster, rw, rh. split; [exact Hdraw|]. split; [exact Hpix|].
  intros Hrw Hrh. exact (pagePlacement_inside _ _ _ _ _ _ _ _ Hplace Hrw Hrh HW HH).
Qed.

(** The 700 x 1000 scan on the A4 page. *)
Lemma convertImageToPDF_inside_page_witness :
  exists raster rw rh,
    In (DrawImage raster None)
      (snd (convertImageToPDF Demo.browser Fixture.jpg Demo.settings))
    /\ Blob.pixels raster = Some (rw, rh)
    /\ ((0 < rw)%Z -> (0 < rh)%Z ->
        0 < (277 * (700 / 1000)) /\ 0 < 277
        /\ 0 < (210 - 277 * (700 / 1000)) / 2 /\ 0 < (297 - 277) / 2
        /\ (210 - 277 * (700 / 1000)) / 2 + 277 * (700 / 1000)
           + (210 - 277 * (700 / 1000)) / 2 == 210
        /\ (297 - 277) / 2 + 277 + (297 - 277) / 2 == 297
        /\ 277 * (700 / 1000) * inject_Z rh == 277 * inject_Z rw
        /\ ((210 - 277 * (700 / 1000)) / 2 == 10 \/ (297 - 277) / 2 == 10)).
Proof.
  apply (convertImageToPDF_inside_page Demo.browser Fixture.jpg Demo.settings
           ((210 - 277 * (700 / 1000)) / 2) ((297 - 277) / 2)
           (277 * (700 / 1000)) 277).
  - right; right; left. vm_compute. reflexivity.
  - reflexivity.
  - reflexivity.
Defined.

(** X18.  The margin of 10 is not always kept.  Without compression, for an
    image of positive size whose aspect ratio is at most the page's but
    larger than that of the page without its margins
    ([pageW - 20 < (pageH - 20) * aspect]), the raster is fitted to the
    height and is placed wider than [pageW - 20]: its left margin is below
    10. *)
Theorem convertImageToPDF_margin_lost (B : Browser) (file : Blob.t)
    (settings : Settings.t) (iw ih : Z) :
  Blob.pixels file = Some (iw, ih) ->
  getContext B = true ->
  Js.truthyB (Settings.enableCompression settings) = false ->
  (0 < iw)%Z -> (0 < ih)%Z ->
  inject_Z iw / inject_Z ih <= pdfWidth B / pdfHeight B ->
  pdfWidth B - 20 < (pdfHeight B - 20) * (inject_Z iw / inject_Z ih) ->
  exists x y fw fh,
    In (AddImage "JPEG" x y fw fh) (snd (convertImageToPDF B file settings))
    /\ pdfWidth B - 20 < fw
    /\ x < 10.
Proof.
  intros Hpix Hctx Hen Hw Hh Ha Hm.
  destruct (convertImageToPDF_embeds_original B file settings iw ih Hpix Hctx Hen)
    as [x [y [fw [fh [Hp Hlog]]]]].
  exists x, y, fw, fh. split; [rewrite Hlog; right; right; left; reflexivity|].
  unfold pagePlacement in Hp.
  apply gt_false in Ha. rewrite Ha in Hp. injection Hp as <- <- <- <-.
  set (a := inject_Z iw / inject_Z ih) in *. clearbody a.
  set (W := pdfWidth B) in *. set (H := pdfHeight B) in *. clearbody W H.
  split; [exact Hm|].
  apply Qlt_shift_div_r; lra.
Qed.

(** The 700 x 1000 scan on the A4 page is placed 193.9 wide, 8.05 from
    the left edge. *)
Lemma convertImageToPDF_margin_lost_witness :
  exists x y fw fh,
    In (AddImage "JPEG" x y fw fh)
      (snd (convertImageToPDF Demo.browser Fixture.jpg Demo.settings))
    /\ pdfWidth Demo.browser - 20 < fw
    /\ x < 10.
Proof.
  apply (convertImageToPDF_margin_lost Demo.browser Fixture.jpg Demo.settings 700 1000);
    first [reflexivity | vm_compute; discriminate].
Defined.

(** ** The name of the converted file *)

Lemma allExtChars_dot (base rest : string) :
  Js.allExtChars (base ++ String "." rest) = false.
Proof.
  induction base as [|c base IH]; [reflexivity|].
  cbn. rewrite IH. apply andb_false_r.
Qed.

(** X19.  A name that ends in a dot followed by an extension (one or more
    characters, none of them a dot or a slash) gets exactly that last
    extension replaced, whatever comes before it, further dots included. *)
Theorem replaceExtension_last (base extension newExtension : string) :
  extension <> "" ->
  Js.allExtChars extension = true ->
  Js.replaceExtension (base ++ String "." extension) newExtension
  = base ++ newExtension.
Proof.
  intros Hne Hext. induction base as [|c base IH].
  - cbn. rewrite Hext.
    destruct (String.eqb_spec extension ""); [contradiction | reflexivity].
  - cbn [append Js.replaceExtension]. rewrite allExtChars_dot, andb_false_r, IH.
    reflexivity.
Qed.

(** [archive.tar.gz] converted to PDF is named [archive.tar.pdf]. *)
Lemma replaceExtension_last_witness :
  Js.replaceExtension ("archive.tar" ++ String "." "gz") ".pdf" = "archive.tar" ++ ".pdf".
Proof.
  apply (replaceExtension_last "archive.tar" "gz" ".pdf"); [discriminate | reflexivity].
Defined.

(** X20.  A name without an extension is left as it is, so the converted
    file gets no extension at all: this is so when whatever follows any dot of
    the name is empty or contains a dot or a slash, in particular when the
    name has no dot. *)
Theorem replaceExtension_none (name newExtension : string) :
  (forall base rest, name = base ++ String "." rest ->
                     rest = "" \/ Js.allExtChars rest = false) ->
  Js.replaceExtension name newExtension = name.
Proof.
  induction name as [|c name IH]; intros Hno; [reflexivity|].
  cbn [Js.replaceExtension].
  assert (K : Ascii.eqb c "." && negb (String.eqb name "") && Js.allExtChars name
              = false).
  { destruct (Ascii.eqb_spec c ".") as [-> | _]; [|reflexivity].
    destruct (Hno "" name eq_refl) as [-> | F]; [reflexivity|].
    rewrite F. apply andb_false_r. }
  rewrite K, IH; [reflexivity|].
  intros base rest E. apply (Hno (String c base) rest). rewrite E. reflexivity.
Qed.

Lemma app_dot_inv (c : ascii) (name base rest : string) :
  String c name = base ++ String "." rest ->
  (c = "."%char /\ base = "" /\ rest = name)
  \/ (exists base', base = String c base' /\ name = base' ++ String "." rest).
Proof.
  destruct base as [|c' base']; cbn; intros E; injection E as -> ->.
  - left. repeat split; reflexivity.
  - right. exists base'. split; reflexivity.
Qed.

(** [my.dir/scan] has a dot but no extension, and stays as it is. *)
Lemma replaceExtension_none_witness :
  Js.replaceExtension "my.dir/scan" ".pdf" = "my.dir/scan".
Proof.
  apply (replaceExtension_none "my.dir/scan" ".pdf").
  intros base rest E.
  repeat (apply app_dot_inv in E;
          destruct E as [[Ec [-> ->]] | [? [-> E]]];
          [first [discriminate Ec | right; reflexivity]|]).
  match type of E with
  | "" = ?b ++ _ => destruct b; discriminate E
  end.
Defined.

(** ** The declared source format *)

(** X21.  The source format of a request is looked up in the table and
    echoed in the result, and has no other effect: two requests for the same
    image, target and settings whose sources are both listed make the same
    calls and end in results with the same success flag, blob, name,
    statistics and error.  The file's own type is never compared with it. *)
Theorem convertImage_source_irrelevant (B : Browser) (imageItem : ImageItem.t)
    (fromType fromType' toType : string) (settings : Settings.t) :
  Spec.pairListed supportedConversions fromType toType = true ->
  Spec.pairListed supportedConversions fromType' toType = true ->
  snd (convertImage B imageItem fromType toType settings)
  = snd (convertImage B imageItem fromType' toType settings)
  /\ exists r r',
       fst (convertImage B imageItem fromType toType settings) = Resolved r
       /\ fst (convertImage B imageItem fromType' toType settings) = Resolved r'
       /\ ConversionResult.success r' = ConversionResult.success r
       /\ ConversionResult.blob r' = ConversionResult.blob r
       /\ ConversionResult.convertedName r' = ConversionResult.convertedName r
       /\ ConversionResult.compressionStats r' = ConversionResult.compressionStats r
       /\ ConversionResult.error r' = ConversionResult.error r.
Proof.
  intros L L'. destruct (String.eqb_spec toType "pdf") as [-> | Hn].
  - rewrite (convertImage_pdf B imageItem fromType settings L).
    rewrite (convertImage_pdf B imageItem fromType' settings L').
    pose proof (convertImageToPDF_outcome B (ImageItem.file imageItem) settings) as O.
    destruct (convertImageToPDF B _ settings) as [[[blob stats] | message |] log];
      cbn in O |- *; [| | contradiction];
      (split; [reflexivity|]); do 2 eexists; repeat split; reflexivity.
  - assert (Hpdf : String.eqb toType "pdf" = false)
      by (apply String.eqb_neq; exact Hn).
    rewrite (convertImage_bitmap B imageItem fromType toType settings L Hpdf).
    rewrite (convertImage_bitmap B imageItem fromType' toType settings L' Hpdf).
    change (convertImageFormat B (ImageItem.file imageItem) fromType' toType settings)
      with (convertImageFormat B (ImageItem.file imageItem) fromType toType settings).
    pose proof (convertImageFormat_outcome B (ImageItem.file imageItem) fromType toType
                  settings) as O.
    destruct (convertImageFormat B _ fromType toType settings)
      as [[[blob stats] | message |] log];
      cbn in O |- *; [| | contradiction];
      (split; [reflexivity|]); do 2 eexists; repeat split; reflexivity.
Qed.

(** A PNG file submitted as [jpg] is converted to PNG like one submitted as
    [jpeg]. *)
Lemma convertImage_source_irrelevant_witness :
  snd (convertImage Demo.browser Demo.item "jpg" "png" Demo.settings)
  = snd (convertImage Demo.browser Demo.item "jpeg" "png" Demo.settings)
  /\ exists r r',
       fst (convertImage Demo.browser Demo.item "jpg" "png" Demo.settings) = Resolved r
       /\ fst (convertImage Demo.browser Demo.item "jpeg" "png" Demo.settings)
          = Resolved r'
       /\ ConversionResult.success r' = ConversionResult.success r
       /\ ConversionResult.blob r' = ConversionResult.blob r
       /\ ConversionResult.convertedName r' = ConversionResult.convertedName r
       /\ ConversionResult.compressionStats r' = ConversionResult.compressionStats r
       /\ ConversionResult.error r' = ConversionResult.error r.
Proof.
  apply (convertImage_source_irrelevant Demo.browser Demo.item "jpg" "jpeg" "png"
           Demo.settings); reflexivity.
Defined.

(** ** The batch of [App.jsx] *)

Lemma setStatus_again (i a b : string) (images : list App.Image) :
  App.setStatus i b (App.setStatus i a images) = App.setStatus i b images.
Proof.
  unfold App.setStatus. rewrite map_map. apply map_ext. intros img.
  destruct (String.eqb (App.id img) i) eqn:E; cbn; rewrite E; reflexivity.
Qed.

Lemma setStatus_other (i st : string) (images : list App.Image) :
  ~ In i (map App.id images) -> App.setStatus i st images = images.
Proof.
  unfold App.setStatus. induction images as [|img images IH]; [reflexivity|].
  cbn. intros Hno.
  destruct (String.eqb_spec (App.id img) i) as [E | _]; [exfalso; apply Hno; left; exact E|].
  rewrite IH; [reflexivity|]. intros Hin. apply Hno. right. exact Hin.
Qed.

(** For a listed pair the loop runs to its end: every conversion resolves,
    the results are collected in order and each image is given its final
    status. *)
Lemma convertEach_listed (B : Browser) (fromType toType : string) (settings : Settings.t) :
  Spec.pairListed supportedConversions fromType toType = true ->
  forall (snapshot images : list App.Image) (results : list ConversionResult.t),
  exists rs log,
    Forall2 (fun img r =>
               fst (convertImage B (App.toItem img) fromType toType settings)
               = Resolved r) snapshot rs
    /\ App.convertEach B fromType toType settings snapshot images results
       = (App.Finished, fold_left App.settle (combine snapshot rs) images,
          (results ++ rs)%list, log).
Proof.
  intros L. induction snapshot as [|img rest IH]; intros images results.
  - exists [], []. split; [constructor|]. cbn. rewrite app_nil_r. reflexivity.
  - destruct (listed_settles B (App.toItem img) fromType toType settings L) as [r Hr].
    cbn [App.convertEach].
    destruct (convertImage B (App.toItem img) fromType toType settings)
      as [c log] eqn:Hc. cbn in Hr. subst c.
    destruct (IH (App.setStatus (App.id img) (App.finalStatus r)
                    (App.setStatus (App.id img) "converting" images))
                 (results ++ [r])%list) as [rs [log' [HF Hrun]]].
    exists (r :: rs), (log ++ log')%list. split.
    + constructor; [rewrite Hc; reflexivity | exact HF].
    + rewrite Hrun. cbn [combine fold_left]. unfold App.settle at 2. cbn [fst snd].
      rewrite setStatus_again, <- app_assoc. reflexivity.
Qed.

Lemma setStatus_split (i st : string) (before after : list App.Image) (img : App.Image) :
  App.id img = i ->
  ~ In i (map App.id before) -> ~ In i (map App.id after) ->
  App.setStatus i st (before ++ img :: after)%list
  = (before ++ App.withStatus st img :: after)%list.
Proof.
  intros Hid Hb Ha. unfold App.setStatus. rewrite map_app. cbn [map].
  fold (App.setStatus i st before). fold (App.setStatus i st after).
  rewrite (setStatus_other i st before Hb), (setStatus_other i st after Ha).
  rewrite Hid, String.eqb_refl. reflexivity.
Qed.

(** With distinct ids, settling the images one after the other gives each
    image its own final status. *)
Lemma settle_all (snapshot : list App.Image) :
  forall (rs : list ConversionResult.t) (before : list App.Image),
    NoDup (map App.id (before ++ snapshot)%list) ->
    length rs = length snapshot ->
    fold_left App.settle (combine snapshot rs) (before ++ snapshot)%list
    = (before
       ++ map (fun p => App.withStatus (App.finalStatus (snd p)) (fst p))
            (combine snapshot rs))%list.
Proof.
  induction snapshot as [|img rest IH]; intros rs before Hnd Hlen.
  - cbn. reflexivity.
  - destruct rs as [|r rs]; [discriminate|]. cbn [combine fold_left map].
    unfold App.settle at 2. cbn [fst snd].
    rewrite map_app in Hnd. cbn [map] in Hnd.
    pose proof (NoDup_remove_2 _ _ _ Hnd) as Hnot.
    rewrite setStatus_split; [|reflexivity| |];
      [| intros Hin; apply Hnot, in_or_app; left; exact Hin
       | intros Hin; apply Hnot, in_or_app; right; exact Hin].
    change (before ++ App.withStatus (App.finalStatus r) img :: rest)%list
      with (before ++ [App.withStatus (App.finalStatus r) img] ++ rest)%list.
    rewrite app_assoc. rewrite IH.
    + rewrite <- app_assoc. reflexivity.
    + rewrite <- app_assoc, map_app. cbn [app map]. exact Hnd.
    + cbn in Hlen. lia.
Qed.

(** X22.  A batch for a listed pair runs through all images: with distinct
    ids and at least one image, every image is converted in turn and its
    result, success or failure, is appended to the results in the order of
    the images; a failure does not stop the loop.  At the end each image has
    status [completed] or [error] according to its own result, the results
    replace the earlier ones, the error is cleared and [isConverting] is
    off. *)
Theorem handleConvertImages_listed (B : Browser) (s : App.State) :
  Spec.pairListed supportedConversions (App.fromType s) (App.toType s) = true ->
  App.selectedImages s <> [] ->
  NoDup (map App.id (App.selectedImages s)) ->
  exists results,
    Forall2 (fun img r =>
               fst (convertImage B (App.toItem img) (App.fromType s) (App.toType s)
                      (App.compressionSettings s)) = Resolved r)
      (App.selectedImages s) results
    /\ fst (App.handleConvertImages B s)
       = App.mkState (App.fromType s) (App.toType s)
           (map (fun p => App.withStatus (App.finalStatus (snd p)) (fst p))
              (combine (App.selectedImages s) results))
           false results "" (App.compressionSettings s).
Proof.
  intros L Hne Hnd.
  destruct (listed_formats _ _ L) as [HF HT].
  assert (Ef : String.eqb (App.fromType s) "" = false).
  { apply String.eqb_neq. intros E. rewrite E in HF. cbn in HF.
    intuition discriminate. }
  assert (Et : String.eqb (App.toType s) "" = false).
  { apply String.eqb_neq. intros E. rewrite E in HT. cbn in HT.
    intuition discriminate. }
  assert (En : Nat.eqb (length (App.selectedImages s)) 0 = false).
  { destruct (App.selectedImages s); [contradiction | reflexivity]. }
  destruct (convertEach_listed B _ _ (App.compressionSettings s) L
              (App.selectedImages s) (App.selectedImages s) [])
    as [rs [log [HF2 Hrun]]].
  exists rs. split; [exact HF2|].
  unfold App.handleConvertImages. rewrite Ef, Et, En. cbn [orb].
  rewrite Hrun. cbn [fst app].
  pose proof (settle_all (App.selectedImages s) rs [] Hnd
                (eq_sym (Forall2_length HF2))) as Hs.
  cbn [app] in Hs. rewrite Hs. reflexivity.
Qed.

(** Of two PNG files, one broken, converted to JPG: the first is
    [completed], the second is [error], and both have a result. *)
Lemma handleConvertImages_listed_witness :
  exists results,
    Forall2 (fun img r =>
               fst (convertImage Demo.browser (App.toItem img) "png" "jpg" Demo.settings)
               = Resolved r)
      (App.selectedImages (Sample.page "png" "jpg")) results
    /\ fst (App.handleConvertImages Demo.browser (Sample.page "png" "jpg"))
       = App.mkState "png" "jpg"
           (map (fun p => App.withStatus (App.finalStatus (snd p)) (fst p))
              (combine (App.selectedImages (Sample.page "png" "jpg")) results))
           false results "" Demo.settings.
Proof.
  apply (handleConvertImages_listed Demo.browser (Sample.page "png" "jpg")).
  - reflexivity.
  - discriminate.
  - repeat constructor; cbn; intuition discriminate.
Defined.

(** X23.  A batch for a pair that is not listed stops at its first image:
    the rejection of [convertImage] is caught by the handler, which shows the
    unsupported-pair message, keeps the earlier results, converts nothing and
    turns [isConverting] off, but leaves the first image (and any image with
    its id) in status [converting], so that its remove button stays
    disabled. *)
Theorem handleConvertImages_unlisted (B : Browser) (s : App.State)
    (first : App.Image) (rest : list App.Image) :
  App.selectedImages s = first :: rest ->
  App.fromType s <> "" -> App.toType s <> "" ->
  Spec.pairListed supportedConversions (App.fromType s) (App.toType s) = false ->
  App.handleConvertImages B s
  = (App.mkState (App.fromType s) (App.toType s)
       (App.withStatus "converting" first
        :: App.setStatus (App.id first) "converting" rest)
       false (App.conversionResults s)
       (Spec.unsupportedPair (App.fromType s) (App.toType s))
       (App.compressionSettings s),
     [])
  /\ ImageList.removeDisabled (App.withStatus "converting" first) = true.
Proof.
  intros Hsel Hf Ht L. split; [|reflexivity].
  unfold App.handleConvertImages. rewrite Hsel.
  apply String.eqb_neq in Hf, Ht. rewrite Hf, Ht. cbn [orb length Nat.eqb].
  cbn [App.convertEach].
  rewrite (convertImage_not_listed B (App.toItem first) _ _ (App.compressionSettings s) L).
  cbn [App.setStatus map]. rewrite String.eqb_refl. reflexivity.
Qed.

(** PNG to PNG on the page with two images. *)
Lemma handleConvertImages_unlisted_witness :
  App.error (fst (App.handleConvertImages Demo.browser (Sample.page "png" "png")))
  = "Conversion from PNG to PNG is not supported"
  /\ map App.status
       (App.selectedImages (fst (App.handleConvertImages Demo.browser
                                   (Sample.page "png" "png"))))
     = ["converting"; "pending"].
Proof.
  destruct (handleConvertImages_unlisted Demo.browser (Sample.page "png" "png")
              (App.mkImage "u1" Sample.good "a.png" 10000 "image/png" "png" "pending")
              [App.mkImage "u2" Sample.bad "b.png" 10 "image/png" "png" "pending"]
              eq_refl) as [E _]; [discriminate | discriminate | reflexivity |].
  rewrite E. split; reflexivity.
Defined.

(** X24.  The compression controls and the table disagree in two ways.
    The controls are shown for [jpg] to [jpg] and for [png] to [png], pairs
    that the table does not list and the engine rejects; whenever they are
    shown, the pair is listed exactly when the two formats differ.  And they
    are never shown for a request that names the format [jpeg], although
    the table lists [jpeg] to [png], [jpeg] to [pdf] and [png] to [jpeg]. *)
Theorem showCompressionControls_table (s : App.State) :
  (App.fromType s = App.toType s ->
   App.fromType s = "jpg" \/ App.fromType s = "png" ->
   App.showCompressionControls s = true
   /\ Spec.pairListed supportedConversions (App.fromType s) (App.toType s) = false)
  /\ (App.showCompressionControls s = true ->
      (Spec.pairListed supportedConversions (App.fromType s) (App.toType s) = true
       <-> App.fromType s <> App.toType s))
  /\ (App.fromType s = "jpeg" \/ App.toType s = "jpeg" ->
      App.showCompressionControls s = false)
  /\ Spec.pairListed supportedConversions "jpeg" "png" = true
  /\ Spec.pairListed supportedConversions "jpeg" "pdf" = true
  /\ Spec.pairListed supportedConversions "png" "jpeg" = true.
Proof.
  unfold App.showCompressionControls.
  split; [|split; [|split; [|repeat split; reflexivity]]].
  - intros E [Hf | Hf]; rewrite <- E, Hf; split; reflexivity.
  - intros H. apply andb_true_iff in H. destruct H as [_ H].
    apply andb_true_iff in H. destruct H as [Hf Ht].
    apply orb_true_iff in Hf. apply orb_true_iff in Ht.
    rewrite orb_true_iff in Ht.
    destruct Hf as [Hf | Hf]; apply String.eqb_eq in Hf; rewrite Hf;
      destruct Ht as [[Ht | Ht] | Ht]; apply String.eqb_eq in Ht; rewrite Ht;
      cbn; split; intros H; try reflexivity; try discriminate; try congruence.
  - intros [-> | ->]; cbn; rewrite ?andb_false_r; reflexivity.
Qed.

(** With [jpg] to [jpg] selected the controls are shown, and the pair is
    not listed. *)
Lemma showCompressionControls_table_witness :
  App.showCompressionControls (App.mkState "jpg" "jpg" [] false [] "" Demo.settings)
  = true
  /\ Spec.pairListed supportedConversions "jpg" "jpg" = false.
Proof.
  apply (proj1 (showCompressionControls_table
                  (App.mkState "jpg" "jpg" [] false [] "" Demo.settings))).
  - reflexivity.
  - left. reflexivity.
Defined.

(** ** The upload zone *)

Lemma filterValid_spec (files : list File.t) :
  fst (Upload.filterValid files)
  = filter (fun f => (File.size f <=? Upload.maxSize)%Z
                     && existsb (String.eqb (File.type f)) Upload.validTypes) files
  /\ (length (snd (Upload.filterValid files)) + length (fst (Upload.filterValid files))
      = length files)%nat.
Proof.
  induction files as [|f files [IH1 IH2]]; [split; reflexivity|].
  cbn [Upload.filterValid filter]. unfold Upload.validateFile.
  destruct (Upload.filterValid files) as [valid alerts]. cbn [fst snd] in *.
  destruct (Z.ltb_spec Upload.maxSize (File.size f)) as [Hbig | Hok].
  - assert (E : (File.size f <=? Upload.maxSize)%Z = false) by (apply Z.leb_gt; exact Hbig).
    rewrite E. cbn. split; [exact IH1 | lia].
  - assert (E : (File.size f <=? Upload.maxSize)%Z = true) by (apply Z.leb_le; exact Hok).
    rewrite E.
    destruct (existsb (String.eqb (File.type f)) Upload.validTypes); cbn.
    + split; [rewrite IH1; reflexivity | lia].
    + split; [exact IH1 | lia].
Qed.

(** X25.  The upload zone forwards, in one call and in their order, exactly
    the files of at most 10 MiB (10485760 bytes, that size included) whose
    MIME type is [image/jpeg], [image/jpg] or [image/png]; it makes no call
    when there is none; every other file raises exactly one alert; and a
    disabled zone ignores a drop without any alert.  The format selected as
    source is not consulted. *)
Theorem handleDrop_forwards (files : list File.t) :
  let valid :=
    filter (fun f => (File.size f <=? 10485760)%Z
                     && existsb (String.eqb (File.type f))
                          ["image/jpeg"; "image/jpg"; "image/png"]) files in
  fst (Upload.handleDrop false files)
  = match valid with [] => None | _ => Some valid end
  /\ (length (snd (Upload.handleDrop false files)) + length valid = length files)%nat
  /\ Upload.handleDrop true files = (None, [])
  /\ Upload.handleFileSelect files = Upload.handleDrop false files.
Proof.
  intros valid. destruct (filterValid_spec files) as [E1 E2].
  unfold Upload.handleDrop, Upload.handleFileSelect.
  destruct (Upload.filterValid files) as [v alerts]. cbn [fst snd] in *.
  change Upload.maxSize with 10485760%Z in E1.
  change Upload.validTypes with ["image/jpeg"; "image/jpg"; "image/png"] in E1.
  fold valid in E1. subst v. repeat split; try reflexivity. exact E2.
Qed.

(** ** The results panel *)

Lemma fold_addResult_shift (results : list ConversionResult.t) (acc : Results.Totals) :
  fold_left Results.addResult results acc
  = Results.mkTotals
      (Results.originalSize acc
       + Results.originalSize (fold_left Results.addResult results
                                 (Results.mkTotals 0 0 0)))
      (Results.finalSize acc
       + Results.finalSize (fold_left Results.addResult results
                              (Results.mkTotals 0 0 0)))
      (Results.fileCount acc
       + Results.fileCount (fold_left Results.addResult results
                              (Results.mkTotals 0 0 0))).
Proof.
  revert acc. induction results as [|r results IH]; intros [o f n].
  - cbn. rewrite !Z.add_0_r. reflexivity.
  - cbn [fold_left]. rewrite IH.
    rewrite (IH (Results.addResult (Results.mkTotals 0 0 0) r)).
    unfold Results.addResult.
    destruct (ConversionResult.compressionStats r);
      cbn [Results.originalSize Results.finalSize Results.fileCount];
      f_equal; ring.
Qed.

(** X26.  The totals of the results panel are sums over the successful
    results that carry statistics.  No results give zero bytes and zero
    files; a successful result with statistics adds its original size to the
    total original size, its final size to the total final size and one to
    the file count; a successful result without statistics and a failed
    result add nothing; and the totals of two batches put together are the
    sums of their totals. *)
Theorem totalStats_additive (results results' : list ConversionResult.t) :
  Results.totalStats [] = Results.mkTotals 0 0 0
  /\ (forall r stats,
         ConversionResult.success r = true ->
         ConversionResult.compressionStats r = Some stats ->
         Results.totalStats (r :: results)
         = Results.mkTotals
             (CompressionStats.originalSize stats
              + Results.originalSize (Results.totalStats results))
             (CompressionStats.finalSize stats
              + Results.finalSize (Results.totalStats results))
             (1 + Results.fileCount (Results.totalStats results)))
  /\ (forall r,
         ConversionResult.success r = true ->
         ConversionResult.compressionStats r = None ->
         Results.totalStats (r :: results) = Results.totalStats results)
  /\ (forall r, ConversionResult.success r = false ->
                Results.totalStats (r :: results) = Results.totalStats results)
  /\ Results.totalStats (results ++ results')
     = Results.mkTotals
         (Results.originalSize (Results.totalStats results)
          + Results.originalSize (Results.totalStats results'))
         (Results.finalSize (Results.totalStats results)
          + Results.finalSize (Results.totalStats results'))
         (Results.fileCount (Results.totalStats results)
          + Results.fileCount (Results.totalStats results')).
Proof.
  split; [reflexivity|]. split; [|split; [|split]].
  - intros r stats Hr Hs. unfold Results.totalStats, Results.successfulResults.
    cbn [filter]. rewrite Hr. cbn [fold_left]. rewrite fold_addResult_shift.
    unfold Results.addResult. rewrite Hs.
    cbn [Results.originalSize Results.finalSize Results.fileCount].
    rewrite !Z.add_0_l. reflexivity.
  - intros r Hr Hs. unfold Results.totalStats, Results.successfulResults.
    cbn [filter]. rewrite Hr. cbn [fold_left].
    unfold Results.addResult at 2. rewrite Hs. reflexivity.
  - intros r Hr. unfold Results.totalStats, Results.successfulResults.
    cbn [filter]. rewrite Hr. reflexivity.
  - unfold Results.totalStats, Results.successfulResults.
    rewrite filter_app, fold_left_app, fold_addResult_shift. reflexivity.
Qed.

(** X27.  The compression summary is rendered exactly when at least one
    result carries statistics and the batch as a whole shrank: the total
    original size is positive and the total final size is below it.  A batch
    that grew in total shows no summary, whatever its single files did. *)
Theorem showSummary_iff (results : list ConversionResult.t) :
  Results.showSummary results = true
  <-> (0 < Results.fileCount (Results.totalStats results))%Z
      /\ (0 < Results.originalSize (Results.totalStats results))%Z
      /\ (Results.finalSize (Results.totalStats results)
          < Results.originalSize (Results.totalStats results))%Z.
Proof.
  unfold Results.showSummary, Results.totalCompressionRatio.
  set (t := Results.totalStats results).
  rewrite andb_true_iff, Z.ltb_lt.
  destruct (Z.ltb_spec 0 (Results.originalSize t)) as [Hpos | Hnon].
  - rewrite gt_true.
    destruct (compressionRatio_sign _ (Results.finalSize t) Hpos) as [Hneg Hge].
    unfold Spec.compressionRatio in Hneg, Hge.
    split.
    + intros [Hn Hr]. split; [exact Hn|]. split; [exact Hpos|].
      destruct (Z_lt_le_dec (Results.finalSize t) (Results.originalSize t)) as [Hlt | Hle];
        [exact Hlt|]. exfalso.
      destruct (Z_le_lt_eq_dec _ _ Hle) as [Hlt | Heq].
      * specialize (Hneg Hlt). lra.
      * rewrite <- Heq in Hr. revert Hr. unfold Qminus. rewrite Qplus_opp_r.
        unfold Qdiv. rewrite !Qmult_0_l. apply Qlt_irrefl.
    + intros [Hn [_ Hlt]]. split; [exact Hn|].
      pose proof (W_pos _ Hpos) as PO.
      assert (L : inject_Z (Results.finalSize t) < inject_Z (Results.originalSize t))
        by (rewrite <- Zlt_Qlt; exact Hlt).
      apply Qmult_lt_0_compat; [|reflexivity].
      apply Qlt_shift_div_l; [exact PO|]. lra.
  - split.
    + intros [_ Hr]. apply gt_true in Hr. exfalso. exact (Qlt_irrefl _ Hr).
    + intros [_ [Hpos _]]. lia.
Qed.

(** X28.  Every success of the engine is counted in the totals: for
    results that all come from [convertImage], the file count of the totals
    is the number of successful results. *)
Theorem totalStats_counts_successes (results : list ConversionResult.t) :
  Forall (fun r => exists B imageItem fromType toType settings log,
                     convertImage B imageItem fromType toType settings
                     = (Resolved r, log)) results ->
  Results.fileCount (Results.totalStats results)
  = Z.of_nat (length (Results.successfulResults results)).
Proof.
  unfold Results.totalStats. induction 1 as [|r results Hr _ IH]; [reflexivity|].
  unfold Results.successfulResults in *. cbn [filter].
  destruct (ConversionResult.success r) eqn:Hs; [|exact IH].
  destruct Hr as [B [imageItem [fromType [toType [settings [log Hrun]]]]]].
  pose proof (convertImage_resolved _ _ _ _ _ _ _ Hrun Hs) as Hstats.
  cbn [fold_left length]. rewrite fold_addResult_shift.
  cbn [Results.fileCount]. rewrite IH.
  unfold Results.addResult. rewrite Hstats. cbn [Results.fileCount]. lia.
Qed.

(** The results of the page with one good and one broken file: one file
    counted. *)
Lemma totalStats_counts_successes_witness :
  Results.fileCount
    (Results.totalStats
       (App.conversionResults
          (fst (App.handleConvertImages Demo.browser (Sample.page "png" "jpg")))))
  = Z.of_nat
      (length
         (Results.successfulResults
            (App.conversionResults
               (fst (App.handleConvertImages Demo.browser (Sample.page "png" "jpg")))))).
Proof.
  apply totalStats_counts_successes.
  repeat constructor.
  - exists Demo.browser, (ImageItem.mk "u1" Demo.png "a.png"), "png", "jpg", Demo.settings.
    eexists. reflexivity.
  - exists Demo.browser, (ImageItem.mk "u2" (Blob.mk 10 "image/png" None) "b.png"),
      "png", "jpg", Demo.settings.
    eexists. reflexivity.
Defined.

(** ** The compression controls *)

(** X29.  Over the range of the quality slider the estimate shown is
    between 0 and 72 percent and never grows with the quality: for
    [0.1 <= q <= q' <= 1], [0 <= percent q' <= percent q <= 72]. *)
Theorem compressionPercent_slider (q q' : Q) :
  1 # 10 <= q -> q <= q' -> q' <= 1 ->
  (0 <= Controls.compressionPercent q')%Z
  /\ (Controls.compressionPercent q' <= Controls.compressionPercent q)%Z
  /\ (Controls.compressionPercent q <= 72)%Z.
Proof.
  intros Hlow Hle Hhigh. unfold Controls.compressionPercent. repeat split.
  - apply Math_round_ge. change (inject_Z 0) with 0. nra.
  - unfold Js.Math_round. apply Qfloor_resp_le. nra.
  - apply Math_round_le. change (inject_Z 72) with 72. nra.
Qed.

(** The presets [High] (0.8) and [Small] (0.3): 16 and 56 percent. *)
Lemma compressionPercent_slider_witness :
  (0 <= Controls.compressionPercent (8 # 10))%Z
  /\ (Controls.compressionPercent (8 # 10) <= Controls.compressionPercent (3 # 10))%Z
  /\ (Controls.compressionPercent (3 # 10) <= 72)%Z.
Proof.
  apply (compressionPercent_slider (3 # 10) (8 # 10)); vm_compute; discriminate.
Defined.

(** ** The extension shown in the image list *)

Lemma includes_dot_app (base rest : string) :
  Js.includes "." (base ++ String "." rest) = true.
Proof.
  induction base as [|c base IH].
  - cbn. destruct rest; reflexivity.
  - cbn [append Js.includes]. rewrite IH. apply orb_true_r.
Qed.

(** X30.  The extension kept for a selected file is the lower-cased text
    after the last dot of its name; a name without a dot has its whole
    lower-cased name as extension, a name ending in a dot has none. *)
Theorem extension_of_name (uuid : string) (file : File.t) (s : App.State) :
  App.selectedImages (App.handleImagesSelected [uuid] [file] s)
  = (App.selectedImages s
     ++ [App.mkImage uuid file (File.name file) (File.size file) (File.type file)
           (App.toLowerCase (App.lastSegment (File.name file))) "pending"])%list
  /\ (Js.includes "." (File.name file) = false ->
      App.lastSegment (File.name file) = File.name file)
  /\ (forall base rest,
         File.name file = base ++ String "." rest ->
         Js.includes "." rest = false ->
         App.lastSegment (File.name file) = rest).
Proof.
  split; [reflexivity|]. split.
  - destruct (File.name file) as [|c r]; [reflexivity|].
    cbn [Js.includes App.lastSegment]. intros H.
    apply orb_false_iff in H. destruct H as [Hp Hr]. rewrite Hr.
    destruct (Ascii.eqb_spec c ".") as [-> | _]; [|reflexivity].
    cbn in Hp. destruct r; discriminate.
  - intros base rest -> Hrest. induction base as [|c base IH].
    + cbn [append App.lastSegment]. rewrite Hrest. reflexivity.
    + cbn [append App.lastSegment]. rewrite includes_dot_app. exact IH.
Qed.

(** [Holiday.Photo.JPG] is listed with the extension [jpg]. *)
Lemma extension_of_name_witness :
  App.toLowerCase (App.lastSegment ("Holiday.Photo" ++ String "." "JPG")) = "jpg".
Proof.
  destruct (extension_of_name "u9"
              (File.mk ("Holiday.Photo" ++ String "." "JPG") Demo.png)
              (App.mkState "" "" [] false [] "" Demo.settings)) as [_ [_ H]].
  cbn [File.name] in H. rewrite (H "Holiday.Photo" "JPG" eq_refl eq_refl). reflexivity.
Defined.

(** One successful conversion of 10000 bytes into 12000 bytes: one file
    counted, with both of its sizes. *)
Lemma totalStats_additive_witness :
  Results.totalStats
    [successRecord Demo.browser Demo.item "png" "jpg" Demo.settings
       (Blob.mk 12000 "image/jpeg" None) "photo.jpg"]
  = Results.mkTotals 10000 12000 1.
Proof.
  apply (proj1 (proj2 (totalStats_additive [] []))
           (successRecord Demo.browser Demo.item "png" "jpg" Demo.settings
              (Blob.mk 12000 "image/jpeg" None) "photo.jpg")
           (CompressionStats.mk 10000 12000
              (((inject_Z 10000 - inject_Z 12000) / inject_Z 10000) * 100) (4 # 5)));
    reflexivity.
Defined.
